(** * Polly-API analytics: a shallow embedding of the computation layer

    The development follows [src/api/analytics/utils.py] and
    [src/api/analytics/services.py].  Python [int] is [Z]; Python [float] is
    read as an exact rational ([Q]), so every formula below is the
    real-number meaning of the source expression.  Where the answer of the
    source turns on the rounding of binary floats (a comparison taken at
    its exact boundary, the mean of values that a float does not hold
    exactly), the statements keep a margin around the boundary or say
    nothing.  A [dict] keyed by strings is a [gmap string _]; the
    SQLAlchemy session is a record of tables, and each query that
    SQLAlchemy can build is the list function that computes its rows; a
    query that names two entities and joins a third that both refer to is
    refused by SQLAlchemy with [InvalidRequestError]. *)

From Stdlib Require Import ZArith QArith Qround Qabs Lia Lqa List.
From Stdlib Require Import Reals Qreals Lra.
From Stdlib Require Import DecimalString Permutation.
From stdpp Require Import gmap strings list fin_maps sorting.

Local Open Scope Z_scope.

(** ** Python values and built-ins *)

Module Py.

(** Exceptions raised by the embedded functions. *)
Inductive exn : Type :=
| ValueError (msg : string)
| ZeroDivisionError
| InvalidRequestError (msg : string).

Inductive result (A : Type) : Type :=
| Ok (a : A)
| Raise (e : exn).
Arguments Ok {A} a.
Arguments Raise {A} e.

Definition bind {A B} (r : result A) (k : A -> result B) : result B :=
  match r with
  | Ok a => k a
  | Raise e => Raise e
  end.

(** [mapM f l]: the loop [for x in l: out.append(f(x))], stopping at the
    first exception. *)
Fixpoint mapM {A B} (f : A -> result B) (l : list A) : result (list B) :=
  match l with
  | [] => Ok []
  | x :: l' =>
      bind (f x) (fun y => bind (mapM f l') (fun ys => Ok (y :: ys)))
  end.

Definition Qlt_bool (a b : Q) : bool := negb (Qle_bool b a).

(** [max(a, b)] keeps its first argument unless the second is strictly
    greater; [min(a, b)] keeps the first unless the second is strictly
    smaller. *)
Definition max (a b : Q) : Q := if Qlt_bool a b then b else a.
Definition min (a b : Q) : Q := if Qlt_bool b a then b else a.

Definition abs (a : Q) : Q := Qabs a.

(** [a / b] on numbers: raises on a zero divisor. *)
Definition div (a b : Q) : result Q :=
  if Qeq_bool b 0 then Raise ZeroDivisionError else Ok (a / b)%Q.

(** [sum(l)]: starts from 0 and adds from the left. *)
Definition sum (l : list Q) : Q := fold_left Qplus l 0%Q.
Definition sumZ (l : list Z) : Z := fold_left Z.add l 0.

Definition len {A} (l : list A) : Z := Z.of_nat (length l).

(** [range(n)]. *)
Definition range (n : Z) : list Z := map Z.of_nat (seq 0 (Z.to_nat n)).

(** Slice bounds: a negative index counts from the end, and both ends
    are clipped to the list. *)
Definition slice_index (n i : Z) : Z :=
  if i <? 0 then Z.max 0 (n + i) else Z.min i n.

(** [l[start:stop]], an omitted bound being [None]. *)
Definition slice {A} (l : list A) (start stop : option Z) : list A :=
  let n := len l in
  let lo := match start with Some i => slice_index n i | None => 0 end in
  let hi := match stop with Some j => slice_index n j | None => n end in
  take (Z.to_nat (hi - lo)) (drop (Z.to_nat lo) l).

(** Nearest integer, ties to the even one. *)
Definition round_half_even (x : Q) : Z :=
  let f := Qfloor x in
  match ((x - inject_Z f) ?= 1 # 2)%Q with
  | Lt => f
  | Gt => f + 1
  | Eq => if Z.even f then f else f + 1
  end.

(** [round(x, ndigits)]. *)
Definition round (x : Q) (ndigits : nat) : Q :=
  let p := inject_Z (10 ^ Z.of_nat ndigits) in
  (inject_Z (round_half_even (x * p)) / p)%Q.

(** [sorted(l)] on numbers: a stable ascending sort. *)
Fixpoint insert_sorted (x : Q) (l : list Q) : list Q :=
  match l with
  | [] => [x]
  | y :: l' => if Qlt_bool y x then y :: insert_sorted x l' else x :: l
  end.
Definition sorted (l : list Q) : list Q := foldr insert_sorted [] l.

(** [enumerate(l)]. *)
Definition enumerate {A} (l : list A) : list (nat * A) := imap pair l.

(** [a > t * v ** 0.5] for [0 <= v], decided without leaving the
    rationals: both sides are compared through their squares, with the
    signs taken into account.  [gt_mul_sqrt_spec] below relates it to the
    real square root. *)
Definition gt_mul_sqrt (a t v : Q) : bool :=
  if Qle_bool 0 t then
    if Qle_bool 0 a then Qlt_bool (t * t * v) (a * a) else false
  else
    if Qle_bool 0 a then Qlt_bool 0 a || Qlt_bool 0 v
    else Qlt_bool (a * a) (t * t * v).

(** *** Further built-ins *)

(** [sorted(l)] for the strict order [lt]: stable. *)
Fixpoint insert_by {A} (lt : A -> A -> bool) (x : A) (l : list A) : list A :=
  match l with
  | [] => [x]
  | y :: l' => if lt y x then y :: insert_by lt x l' else x :: l
  end.
Definition sorted_by {A} (lt : A -> A -> bool) (l : list A) : list A :=
  foldr (insert_by lt) [] l.

(** [max(x :: l, key=key)]: the first element whose key is the largest. *)
Definition max_by {A} (key : A -> Z) (x : A) (l : list A) : A :=
  fold_left (fun best y => if key best <? key y then y else best) l x.

(** [str(n)] of an integer, and the format [{n:02d}]. *)
Definition str_int (n : Z) : string := NilZero.string_of_int (Z.to_int n).
Definition pad2 (n : Z) : string :=
  if (0 <=? n) && (n <? 10) then String.append "0" (str_int n) else str_int n.

(** A [dict] whose order of insertion matters, as an association list:
    [d.get(k, default)] and [d[k] = v]. *)
Fixpoint dict_get {V} (d : list (string * V)) (k : string) (default : V) : V :=
  match d with
  | [] => default
  | (k', v) :: d' => if String.eqb k' k then v else dict_get d' k default
  end.
Fixpoint dict_set {V} (d : list (string * V)) (k : string) (v : V)
    : list (string * V) :=
  match d with
  | [] => [(k, v)]
  | (k', v') :: d' =>
      if String.eqb k' k then (k, v) :: d' else (k', v') :: dict_set d' k v
  end.

End Py.

Import Py.

#[global] Instance result_bind : MBind Py.result :=
  fun A B k r => Py.bind r k.

(** ** [utils.py] *)

(** [clamp(value, min_val, max_val)]. *)
Definition clamp (value min_val max_val : Q) : Q :=
  Py.max min_val (Py.min max_val value).

(** [safe_divide(numerator, denominator, default)]. *)
Definition safe_divide (numerator denominator default : Q) : Q :=
  if negb (Qeq_bool denominator 0) then (numerator / denominator)%Q
  else default.

Module AnalyticsCalculator.

(** The local [complexity_factor] of [calculate_engagement_score]. *)
Definition complexity_factor (option_count : Z) : Q :=
  Py.min (12 # 10) (1 + inject_Z (option_count - 2) * (1 # 10))%Q.

Definition calculate_engagement_score
    (votes views unique_voters : Z) (poll_age_hours : Q)
    (option_count : Z) : Q :=
  if views =? 0 then 0%Q
  else
    let base_engagement := (inject_Z votes / inject_Z views * 100)%Q in
    let diversity_bonus :=
      if 0 <? votes then (inject_Z unique_voters / inject_Z votes * 10)%Q
      else 0%Q in
    let recency_bonus := Py.max 0 (10 - poll_age_hours / 24)%Q in
    let score :=
      ((base_engagement + diversity_bonus + recency_bonus)
       * complexity_factor option_count)%Q in
    Py.min 100 (Py.max 0 score).

(** The two means and the change ratio are exact here.  The source takes
    them on floats, so a series whose change ratio sits on a threshold
    (such as 10, 0, 0, 0, 0, 9 with a window of 3, whose ratio is -0.1)
    can fall on the other side of it there. *)
Definition calculate_trend_direction
    (values : list Q) (window_size : Z) : result string :=
  if Py.len values <? window_size * 2 then Ok "stable"%string
  else
    first_window ←
      Py.div (Py.sum (Py.slice values None (Some window_size)))
             (inject_Z window_size);
    last_window ←
      Py.div (Py.sum (Py.slice values (Some (- window_size)) None))
             (inject_Z window_size);
    let threshold := (1 # 10)%Q in
    let change_ratio :=
      if Py.Qlt_bool 0 first_window
      then ((last_window - first_window) / first_window)%Q
      else 0%Q in
    if Py.Qlt_bool threshold change_ratio then Ok "increasing"%string
    else if Py.Qlt_bool change_ratio (- threshold)%Q
         then Ok "decreasing"%string
         else Ok "stable"%string.

Definition calculate_percentile_rank (value : Q) (dataset : list Q) : Q :=
  match dataset with
  | [] => 50%Q
  | _ =>
      let sorted_data := Py.sorted dataset in
      let count_below :=
        Py.len (List.filter (fun x => Py.Qlt_bool x value) sorted_data) in
      let count_equal :=
        Py.len (List.filter (fun x => Qeq_bool x value) sorted_data) in
      let percentile :=
        ((inject_Z count_below + inject_Z count_equal / 2)
         / inject_Z (Py.len sorted_data) * 100)%Q in
      Py.round percentile 2
  end.

End AnalyticsCalculator.

Module DataAggregator.

(** Each mean is exact here.  In the source the sum is rounded at every
    addition, so the mean of values that a float does not hold exactly
    (such as 0.1, 0.1, 0.1) can differ from them in the last place. *)
Definition calculate_moving_average
    (values : list Q) (window_size : Z) : result (list Q) :=
  if Py.len values <? window_size then Ok values
  else
    Py.mapM
      (fun i =>
         let window := Py.slice values (Some i) (Some (i + window_size)) in
         Py.div (Py.sum window) (inject_Z window_size))
      (Py.range (Py.len values - window_size + 1)).

Definition mean (values : list Q) : Q :=
  (Py.sum values / inject_Z (Py.len values))%Q.

Definition variance (values : list Q) : Q :=
  let mean_val := mean values in
  (Py.sum (map (fun x => (x - mean_val) ^ 2) values)
   / inject_Z (Py.len values))%Q.

(** [std_dev = variance ** 0.5] is only used in the test
    [abs(value - mean_val) > threshold_std * std_dev], which
    [Py.gt_mul_sqrt] decides exactly.  The mean and the deviations are
    exact here; in the source they are rounded, so values that differ
    from their mean by rounding alone (a series of equal values such as
    0.1, 0.1, 0.1) have deviations that are not 0 there. *)
Definition detect_anomalies
    (values : list Q) (threshold_std : Q) : list (nat * Q) :=
  if Py.len values <? 3 then []
  else
    let mean_val := mean values in
    let variance := variance values in
    List.filter
      (fun iv =>
         Py.gt_mul_sqrt (Py.abs (snd iv - mean_val)) threshold_std variance)
      (Py.enumerate values).

End DataAggregator.

(** ** The data source *)

(** Modelled from the spec: [api.models] is not among the sources.  The
    entities are those of the spec's data model (User, Poll, Option, Vote)
    with the attributes the services read; [id] is the primary key of its
    table.  A [datetime] is a count of microseconds since the epoch, UTC. *)
Module models.

Definition datetime : Type := Z.

Module User.
Record t : Type := { id : Z; username : string }.
End User.

(** [view_count] is [None] when the attribute is absent, which
    [getattr(poll, 'view_count', 0)] reads as 0. *)
Module Poll.
Record t : Type :=
  { id : Z; question : string; created_at : datetime; owner_id : Z;
    view_count : option Z }.
End Poll.

Module Option.
Record t : Type := { id : Z; text : string; poll_id : Z }.
End Option.

Module Vote.
Record t : Type :=
  { id : Z; created_at : datetime; option_id : Z; user_id : Z }.
End Vote.

End models.

Import models.

(** The tables behind the SQLAlchemy session, in storage order. *)
Record Session : Type :=
  { users : list User.t;
    polls : list Poll.t;
    options : list Option.t;
    votes : list Vote.t }.

(** ** [schemas.py] *)

Record PollSummary : Type :=
  { ps_id : Z; ps_question : string; ps_created_at : datetime }.

Record DailyVoteCount : Type :=
  { date : string; vote_count : Z; dv_unique_voters : Z }.

Record PollAnalytics : Type :=
  { pa_poll_id : Z;
    poll_question : string;
    total_votes : Z;
    engagement_rate : Q;
    vote_distribution : gmap string Z;
    performance_score : Q;
    pa_created_at : datetime;
    peak_voting_time : option datetime;
    total_views : Z;
    unique_voters : Z;
    vote_velocity : Q }.

Record VotingTrends : Type :=
  { timeframe : string;
    daily_votes : list DailyVoteCount;
    popular_times : list string;
    engagement_trend : string;
    total_votes_period : Z;
    average_daily_votes : Q;
    peak_day : option string }.

Record PopularPoll : Type :=
  { pp_poll_id : Z;
    pp_question : string;
    pp_vote_count : Z;
    pp_engagement_rate : Q;
    pp_created_at : datetime;
    creator_username : string;
    option_count : Z }.

(** ** [datetime] arithmetic *)

Module Time.

Definition us_per_second : Z := 1000000.
Definition us_per_day : Z := 86400 * us_per_second.

(** [timedelta.total_seconds()] of a difference of [d] microseconds. *)
Definition total_seconds (d : Z) : Q := (inject_Z d / inject_Z us_per_second)%Q.

(** [timedelta.days]: whole days, rounded towards minus infinity. *)
Definition days (d : Z) : Z := d / us_per_day.

End Time.

(** ** [utils.py]: time helpers *)

Module TimeAnalyzer.

Definition hour_us : Z := 3600 * Time.us_per_second.

(** The [timedelta] of a bucket size. *)
Definition bucket_delta (bucket_size : string) : result Z :=
  if String.eqb bucket_size "hour" then Ok hour_us
  else if String.eqb bucket_size "day" then Ok Time.us_per_day
  else if String.eqb bucket_size "week" then Ok (7 * Time.us_per_day)
  else Raise (ValueError (String.append "Invalid bucket size: " bucket_size)).

(** The loop [while current <= end_date], run for at most [fuel] turns. *)
Fixpoint buckets_loop (fuel : nat) (current end_date delta : Z) : list datetime :=
  match fuel with
  | O => []
  | S fuel' =>
      if current <=? end_date
      then current :: buckets_loop fuel' (current + delta) end_date delta
      else []
  end.

(** [get_time_buckets]; each turn of the loop moves [current] by [delta],
    so the span divided by [delta], plus one, bounds the number of
    turns. *)
Definition get_time_buckets
    (start_date end_date : datetime) (bucket_size : string)
    : result (list datetime) :=
  delta ← bucket_delta bucket_size;
  Ok (buckets_loop (Z.to_nat ((end_date - start_date) / delta + 1))
                   start_date end_date delta).

(** [ts.hour] and the label [f"{ts.hour:02d}:00"]. *)
Definition hour_of (ts : datetime) : Z := (ts / hour_us) mod 24.
Definition hour_label (ts : datetime) : string :=
  String.append (Py.pad2 (hour_of ts)) ":00".

Section Peaks.

(** [ts.strftime(format)] and [str(ts)] are taken as given. *)
Variable strftime : string -> datetime -> string.
Variable str_datetime : datetime -> string.

Definition bucket_key (bucket_size : string) (ts : datetime) : string :=
  if String.eqb bucket_size "hour" then hour_label ts
  else if String.eqb bucket_size "day" then strftime "%A" ts
  else if String.eqb bucket_size "date" then strftime "%Y-%m-%d" ts
  else str_datetime ts.

(** One turn of the counting loop:
    [bucket_counts[key] = bucket_counts.get(key, 0) + 1]. *)
Definition count_bucket
    (bucket_size : string) (bucket_counts : list (string * Z)) (ts : datetime)
    : list (string * Z) :=
  let key := bucket_key bucket_size ts in
  Py.dict_set bucket_counts key (Py.dict_get bucket_counts key 0 + 1).

Definition find_peak_activity_periods
    (timestamps : list datetime) (bucket_size : string) (top_n : Z)
    : list (string * Z) :=
  match timestamps with
  | [] => []
  | _ =>
      let bucket_counts := fold_left (count_bucket bucket_size) timestamps [] in
      let sorted_periods :=
        Py.sorted_by (fun a b => b.2 <? a.2) bucket_counts in
      Py.slice sorted_periods None (Some top_n)
  end.

End Peaks.

(** The loop of [calculate_activity_velocity], run for at most [fuel]
    turns. *)
Fixpoint velocity_loop
    (fuel : nat) (sorted_timestamps : list datetime) (window_hours : Z)
    (current_time end_time : datetime) : result (list (datetime * Q)) :=
  match fuel with
  | O => Ok []
  | S fuel' =>
      if current_time <=? end_time then
        let window_end := current_time + window_hours * hour_us in
        let count :=
          Py.len
            (List.filter
               (fun ts => (current_time <=? ts) && (ts <? window_end))
               sorted_timestamps) in
        velocity ← Py.div (inject_Z count) (inject_Z window_hours);
        rest ← velocity_loop fuel' sorted_timestamps window_hours
                 (current_time + hour_us) end_time;
        Ok ((current_time, velocity) :: rest)
      else Ok []
  end.

(** [calculate_activity_velocity]; the window moves by one hour a turn, so
    the span in hours plus one bounds the number of turns. *)
Definition calculate_activity_velocity
    (timestamps : list datetime) (window_hours : Z)
    : result (list (datetime * Q)) :=
  match timestamps with
  | [] => Ok []
  | _ =>
      let sorted_timestamps := Py.sorted_by Z.ltb timestamps in
      let start_time := hd 0 sorted_timestamps in
      let end_time := List.last sorted_timestamps 0 in
      velocity_loop (Z.to_nat ((end_time - start_time) / hour_us + 1))
                    sorted_timestamps window_hours start_time end_time
  end.

End TimeAnalyzer.

(** ** [services.py] *)

Module AnalyticsService.

(** The comparison that closes [_calculate_engagement_trend]. *)
Definition compare_halves (first_half_avg second_half_avg : Q) : string :=
  if Py.Qlt_bool (first_half_avg * (11 # 10))%Q second_half_avg
  then "increasing"
  else if Py.Qlt_bool second_half_avg (first_half_avg * (9 # 10))%Q
       then "decreasing"
       else "stable".

Definition _calculate_engagement_trend
    (daily_votes : list DailyVoteCount) : string :=
  if Py.len daily_votes <? 2 then "stable"
  else
    let half := Py.len daily_votes / 2 in
    let first_half_avg :=
      (inject_Z
         (Py.sumZ (map vote_count (Py.slice daily_votes None (Some half))))
       / inject_Z half)%Q in
    let second_half_avg :=
      (inject_Z
         (Py.sumZ (map vote_count (Py.slice daily_votes (Some half) None)))
       / inject_Z (Py.len daily_votes - half))%Q in
    compare_halves first_half_avg second_half_avg.

(** [getattr(poll, 'view_count', 0)]. *)
Definition poll_views (poll : Poll.t) : Z := default 0 (Poll.view_count poll).

Section WithSession.

Variable db : Session.

(** [query(Poll).filter(Poll.id == poll_id).first()]. *)
Definition poll_by_id (poll_id : Z) : option Poll.t :=
  List.find (fun p => Poll.id p =? poll_id) (polls db).

(** The row an inner join attaches to a vote, and to an option. *)
Definition option_of_vote (v : Vote.t) : option Option.t :=
  List.find (fun o => Option.id o =? Vote.option_id v) (options db).
Definition poll_of_option (o : Option.t) : option Poll.t :=
  List.find (fun p => Poll.id p =? Option.poll_id o) (polls db).

(** Votes [.join(Option).filter(Option.poll_id == poll_id)]. *)
Definition votes_of_poll (poll_id : Z) : list Vote.t :=
  List.filter
    (fun v =>
       match option_of_vote v with
       | Some o => Option.poll_id o =? poll_id
       | None => false
       end)
    (votes db).

(** [query(func.count(Vote.id)) ... .scalar() or 0] for one poll. *)
Definition poll_vote_count (poll_id : Z) : Z :=
  Py.len (votes_of_poll poll_id).

(** The poll a vote belongs to, through [.join(Option).join(Poll)]. *)
Definition poll_of_vote (v : Vote.t) : option Poll.t :=
  o ← option_of_vote v; poll_of_option o.

(** Votes [.join(Option).join(Poll).filter(Poll.owner_id == user_id)]. *)
Definition votes_of_owner (user_id : Z) : list (Vote.t * Poll.t) :=
  omap
    (fun v =>
       p ← poll_of_vote v;
       if Poll.owner_id p =? user_id then Some (v, p) else None)
    (votes db).

(** The rows of the grouped query of [_get_vote_distribution]: options
    outer-joined with their votes, grouped by option (the key holds the
    primary key, so there is one group per option of the poll), each
    row being the option's text and the number of its votes. *)
Definition vote_distribution_rows (poll_id : Z) : list (string * Z) :=
  map
    (fun o =>
       (Option.text o,
        Py.len
          (List.filter (fun v => Vote.option_id v =? Option.id o)
                       (votes db))))
    (List.filter (fun o => Option.poll_id o =? poll_id) (options db)).

(** [{k: v for k, v in rows}]: a later row replaces an earlier one with
    the same key. *)
Definition dict_of_rows (rows : list (string * Z)) : gmap string Z :=
  fold_left (fun d kv => <[kv.1 := kv.2]> d) rows ∅.

Definition _get_vote_distribution (poll_id : Z) : gmap string Z :=
  dict_of_rows (vote_distribution_rows poll_id).

(** [sum(d.values())]. *)
Definition sum_values (d : gmap string Z) : Z :=
  map_fold (fun _ v acc => acc + v) 0 d.

Definition _calculate_average_engagement_rate
    (polls : list Poll.t) : Q :=
  match polls with
  | [] => 0%Q
  | _ =>
      let '(total_engagement, valid_polls) :=
        fold_left
          (fun '(total_engagement, valid_polls) poll =>
             if 0 <? poll_views poll then
               let vote_count := poll_vote_count (Poll.id poll) in
               let engagement_rate :=
                 (inject_Z vote_count / inject_Z (poll_views poll)
                  * 100)%Q in
               ((total_engagement + engagement_rate)%Q, valid_polls + 1)
             else (total_engagement, valid_polls))
          polls (0%Q, 0) in
      if 0 <? valid_polls
      then (total_engagement / inject_Z valid_polls)%Q
      else 0%Q
  end.

(** The loop of [_get_most_popular_poll], on the pair
    [(max_votes, most_popular)]. *)
Definition most_popular_step
    (acc : Z * option Poll.t) (poll : Poll.t) : Z * option Poll.t :=
  let vote_count := poll_vote_count (Poll.id poll) in
  if acc.1 <? vote_count then (vote_count, Some poll) else acc.

Definition _get_most_popular_poll
    (polls : list Poll.t) : option PollSummary :=
  match polls with
  | [] => None
  | _ =>
      match (fold_left most_popular_step polls (0, None)).2 with
      | Some most_popular =>
          Some {| ps_id := Poll.id most_popular;
                  ps_question := Poll.question most_popular;
                  ps_created_at := Poll.created_at most_popular |}
      | None => None
      end
  end.

(** [now] is the value of [datetime.now(UTC)] at the call. *)
Definition _calculate_poll_performance_score
    (now : datetime) (poll_id : Z) : Q :=
  match poll_by_id poll_id with
  | None => 0%Q
  | Some poll =>
      let vote_count := poll_vote_count poll_id in
      let poll_views := poll_views poll in
      let engagement_rate :=
        if 0 <? poll_views
        then (inject_Z vote_count / inject_Z poll_views)%Q
        else 0%Q in
      let days_old := Time.days (now - Poll.created_at poll) in
      let recency_factor := Py.max 0 (1 - inject_Z days_old / 30)%Q in
      let score :=
        Py.min 100
          (inject_Z vote_count * 10 + engagement_rate * 50
           + recency_factor * 20)%Q in
      Py.round score 2
  end.

(** The newest vote of the poll, if any. *)
Definition _get_peak_voting_time (poll_id : Z) : option datetime :=
  match map Vote.created_at (votes_of_poll poll_id) with
  | [] => None
  | t :: ts => Some (fold_left Z.max ts t)
  end.

(** [count(distinct(Vote.user_id))] over the poll's votes. *)
Definition count_unique_voters (poll_id : Z) : Z :=
  Py.len (remove_dups (map Vote.user_id (votes_of_poll poll_id))).

(** [get_poll_analytics]; [now_score] and [now] are the two readings of
    [datetime.now(UTC)], the first inside
    [_calculate_poll_performance_score]. *)
Definition get_poll_analytics
    (now_score now : datetime) (poll_id : Z) : result PollAnalytics :=
  match poll_by_id poll_id with
  | None =>
      Raise (ValueError
               (String.append "Poll with ID "
                  (String.append (Py.str_int poll_id) " not found")))
  | Some poll =>
      let vote_distribution := _get_vote_distribution poll_id in
      let total_votes := sum_values vote_distribution in
      let poll_views := poll_views poll in
      let engagement_rate :=
        if 0 <? poll_views
        then (inject_Z total_votes / inject_Z poll_views * 100)%Q
        else 0%Q in
      let performance_score :=
        _calculate_poll_performance_score now_score poll_id in
      let unique_voters := count_unique_voters poll_id in
      let hours_since_creation :=
        (Time.total_seconds (now - Poll.created_at poll) / 3600)%Q in
      let vote_velocity :=
        if Py.Qlt_bool 0 hours_since_creation
        then (inject_Z total_votes / hours_since_creation)%Q
        else 0%Q in
      let peak_voting_time := _get_peak_voting_time poll_id in
      Ok {| pa_poll_id := poll_id;
            poll_question := Poll.question poll;
            total_votes := total_votes;
            engagement_rate := engagement_rate;
            vote_distribution := vote_distribution;
            performance_score := performance_score;
            pa_created_at := Poll.created_at poll;
            peak_voting_time := peak_voting_time;
            total_views := poll_views;
            unique_voters := unique_voters;
            vote_velocity := vote_velocity |}
  end.

(** [datetime.min.replace(tzinfo=UTC)]: 0001-01-01T00:00:00. *)
Definition datetime_min : datetime := -62135596800 * Time.us_per_second.

Definition _calculate_cutoff_date
    (now : datetime) (timeframe : string) : result datetime :=
  if String.eqb timeframe "day" then Ok (now - 1 * Time.us_per_day)
  else if String.eqb timeframe "week" then Ok (now - 7 * Time.us_per_day)
  else if String.eqb timeframe "month" then Ok (now - 30 * Time.us_per_day)
  else if String.eqb timeframe "year" then Ok (now - 365 * Time.us_per_day)
  else if String.eqb timeframe "all" then Ok datetime_min
  else Raise (ValueError (String.append "Invalid timeframe: " timeframe)).

(** The text SQLAlchemy gives the error it raises on an ambiguous join is
    taken as given. *)
Variable ambiguous_join : string.

(** [get_popular_polls].  After the cutoff date is computed, the query
    [query(Poll, func.count(Vote.id)).join(Option)] names two entities,
    [Poll] and [Vote], that both refer to [Option], and gives no
    [select_from]: SQLAlchemy cannot choose the left side of the join and
    raises [InvalidRequestError] before a row is read, so the loop over
    the rows never runs. *)
Definition get_popular_polls
    (now : datetime) (limit : Z) (timeframe : string)
    : result (list PopularPoll) :=
  cutoff_date ← _calculate_cutoff_date now timeframe;
  Raise (InvalidRequestError ambiguous_join).

(** Votes on the user's polls cast from [start_date] to [end_date], both
    included. *)
Definition votes_in_window
    (user_id : Z) (start_date end_date : datetime) : list Vote.t :=
  map fst
    (List.filter
       (fun vp =>
          (start_date <=? Vote.created_at vp.1)
          && (Vote.created_at vp.1 <=? end_date))
       (votes_of_owner user_id)).

(** [func.date(Vote.created_at)] as the number of the day, and
    [func.extract('hour', Vote.created_at)]. *)
Definition vote_day (v : Vote.t) : Z := Vote.created_at v / Time.us_per_day.
Definition vote_hour (v : Vote.t) : Z := TimeAnalyzer.hour_of (Vote.created_at v).

(** [vote_date.strftime('%Y-%m-%d')] of the day numbered [z] is taken as
    given. *)
Variable strftime_date : Z -> string.

(** The grouped queries give no order among days, and none among hours
    with equally many votes: the order in which the database returns the
    groups is taken as given, as the rearrangement [group_order] of the
    group keys. *)
Variable group_order : list Z -> list Z.

(** One row per day with a vote, in the order of the database. *)
Definition _get_daily_vote_counts
    (user_id : Z) (start_date end_date : datetime) : list DailyVoteCount :=
  let window := votes_in_window user_id start_date end_date in
  map
    (fun day =>
       let group := List.filter (fun v => vote_day v =? day) window in
       {| date := strftime_date day;
          vote_count := Py.len group;
          dv_unique_voters := Py.len (remove_dups (map Vote.user_id group)) |})
    (group_order (remove_dups (map vote_day window))).

Definition _get_popular_voting_times
    (user_id : Z) (start_date end_date : datetime) : list string :=
  let window := votes_in_window user_id start_date end_date in
  let hourly_counts :=
    take 3
      (Py.sorted_by
         (fun a b => b.2 <? a.2)
         (map
            (fun hour =>
               (hour,
                Py.len (List.filter (fun v => vote_hour v =? hour) window)))
            (group_order (remove_dups (map vote_hour window))))) in
  map (fun hc => String.append (Py.pad2 hc.1) ":00") hourly_counts.

Definition get_voting_trends
    (now : datetime) (user_id days : Z) : VotingTrends :=
  let end_date := now in
  let start_date := end_date - days * Time.us_per_day in
  let daily_votes := _get_daily_vote_counts user_id start_date end_date in
  let total_votes := Py.sumZ (map vote_count daily_votes) in
  let avg_daily_votes :=
    if 0 <? days then (inject_Z total_votes / inject_Z days)%Q else 0%Q in
  let engagement_trend := _calculate_engagement_trend daily_votes in
  let peak_day :=
    match daily_votes with
    | [] => None
    | d :: ds => Some (date (Py.max_by vote_count d ds))
    end in
  let popular_times :=
    _get_popular_voting_times user_id start_date end_date in
  let timeframe_str :=
    if negb (days =? 7) then String.append (Py.str_int days) " days"
    else "week" in
  {| timeframe := timeframe_str;
     daily_votes := daily_votes;
     popular_times := popular_times;
     engagement_trend := engagement_trend;
     total_votes_period := total_votes;
     average_daily_votes := avg_daily_votes;
     peak_day := peak_day |}.

End WithSession.

End AnalyticsService.

(** ** [routes.py] *)

Module Routes.

(** What a route does: it returns a value or raises an [HTTPException]. *)
Inductive response (A : Type) : Type :=
| Return (a : A)
| HTTPException (status_code : Z) (detail : string).
Arguments Return {A} a.
Arguments HTTPException {A} status_code detail.

(** [str(e)]. *)
Definition str_exn (e : Py.exn) : string :=
  match e with
  | ValueError msg => msg
  | ZeroDivisionError => "division by zero"
  | InvalidRequestError msg => msg
  end.

(** The dictionary returned by [get_poll_engagement_details], one field
    per leaf. *)
Record EngagementDetails : Type :=
  { ed_poll_id : Z;
    ed_total_votes : Z;
    ed_total_views : Z;
    ed_unique_voters : Z;
    ed_engagement_rate : Q;
    conversion_rate : Q;
    engagement_velocity : Q;
    ed_vote_velocity : Q;
    ed_performance_score : Q;
    poll_age_hours : Q;
    ed_peak_voting_time : option datetime;
    ed_created_at : datetime;
    ed_vote_distribution : gmap string Z }.

(** [d.timestamp()]: seconds since the epoch. *)
Definition timestamp (d : datetime) : Q := Time.total_seconds d.

Section WithSession.

Variable db : Session.

Definition verify_poll_ownership
    (poll_id : Z) (current_user : User.t) : response Poll.t :=
  match AnalyticsService.poll_by_id db poll_id with
  | None => HTTPException 404 "Poll not found"
  | Some poll =>
      if negb (Poll.owner_id poll =? User.id current_user)
      then HTTPException 403 "Access denied: You don't own this poll"
      else Return poll
  end.

(** [now_score] and [now] are the two clock readings of the service. *)
Definition get_poll_analytics
    (now_score now : datetime) (poll_id : Z) (current_user : User.t)
    : response PollAnalytics :=
  match verify_poll_ownership poll_id current_user with
  | HTTPException status_code detail => HTTPException status_code detail
  | Return _ =>
      match AnalyticsService.get_poll_analytics db now_score now poll_id with
      | Ok analytics => Return analytics
      | Raise (ValueError msg) => HTTPException 404 msg
      | Raise e =>
          HTTPException 500
            (String.append "Failed to generate poll analytics: " (str_exn e))
      end
  end.

Definition get_poll_engagement_details
    (now_score now : datetime) (poll_id : Z) (current_user : User.t)
    : response EngagementDetails :=
  match verify_poll_ownership poll_id current_user with
  | HTTPException status_code detail => HTTPException status_code detail
  | Return poll =>
      match AnalyticsService.get_poll_analytics db now_score now poll_id with
      | Raise e =>
          HTTPException 500
            (String.append "Failed to generate engagement details: "
                           (str_exn e))
      | Ok poll_analytics =>
          let total_votes := total_votes poll_analytics in
          let total_views := total_views poll_analytics in
          let conversion_rate :=
            if 0 <? total_views
            then (inject_Z total_votes / inject_Z total_views * 100)%Q
            else 0%Q in
          let poll_age_hours :=
            ((timestamp (pa_created_at poll_analytics)
              - timestamp (Poll.created_at poll)) / 3600)%Q in
          let engagement_velocity :=
            if Py.Qlt_bool 0 poll_age_hours
            then (inject_Z (total_votes + total_views) / poll_age_hours)%Q
            else 0%Q in
          Return
            {| ed_poll_id := poll_id;
               ed_total_votes := total_votes;
               ed_total_views := total_views;
               ed_unique_voters := unique_voters poll_analytics;
               ed_engagement_rate := engagement_rate poll_analytics;
               conversion_rate := Py.round conversion_rate 2;
               engagement_velocity := Py.round engagement_velocity 2;
               ed_vote_velocity := vote_velocity poll_analytics;
               ed_performance_score := performance_score poll_analytics;
               poll_age_hours := Py.round poll_age_hours 2;
               ed_peak_voting_time := peak_voting_time poll_analytics;
               ed_created_at := pa_created_at poll_analytics;
               ed_vote_distribution := vote_distribution poll_analytics |}
      end
  end.

(** The text of the error of an ambiguous join, as in the service. *)
Variable ambiguous_join : string.

(** The route [get_popular_polls]: an invalid timeframe becomes a 400,
    any other exception a 500. *)
Definition get_popular_polls
    (now : datetime) (limit : Z) (timeframe : string)
    : response (list PopularPoll) :=
  match
    AnalyticsService.get_popular_polls ambiguous_join now limit timeframe
  with
  | Ok polls => Return polls
  | Raise (ValueError msg) => HTTPException 400 msg
  | Raise e =>
      HTTPException 500
        (String.append "Failed to fetch popular polls: " (str_exn e))
  end.

End WithSession.

End Routes.

(** ** The specification's formulas, as it words them *)

Module Spec.

(** Engagement score (section 4.4): the clamp of
    [(base_engagement + diversity_bonus + recency_bonus)
     * complexity_factor], each term with its zero fallback. *)
Definition engagement_score
    (votes views unique_voters : Z) (age_hours : Q) (option_count : Z)
    : Q :=
  let base_engagement :=
    if views =? 0 then 0%Q
    else (inject_Z votes / inject_Z views * 100)%Q in
  let diversity_bonus :=
    if votes =? 0 then 0%Q
    else (inject_Z unique_voters / inject_Z votes * 10)%Q in
  let recency_bonus := Py.max 0 (10 - age_hours / 24)%Q in
  let complexity_factor :=
    Py.min (12 # 10) (1 + inject_Z (option_count - 2) * (1 # 10))%Q in
  clamp
    ((base_engagement + diversity_bonus + recency_bonus)
     * complexity_factor)%Q 0 100.



(** The rows of a grouped query whose text no later row repeats, and
    the rows whose text a later row repeats. *)
Fixpoint kept_rows (rows : list (string * Z)) : list (string * Z) :=
  match rows with
  | [] => []
  | r :: rest =>
      if bool_decide (r.1 ∈ rest.*1) then kept_rows rest
      else r :: kept_rows rest
  end.

(** Sum of the counts of a list of rows. *)
Definition row_total (rows : list (string * Z)) : Z :=
  foldr Z.add 0 rows.*2.

End Spec.

(** ** Sample data *)

Module Samples.

Definition hour_us : Z := 3600 * Time.us_per_second.

Definition mk_poll (id views : Z) : Poll.t :=
  {| Poll.id := id; Poll.question := "Tea or coffee?";
     Poll.created_at := 0; Poll.owner_id := 1;
     Poll.view_count := Some views |}.

Definition mk_vote (id option_id user_id : Z) : Vote.t :=
  {| Vote.id := id; Vote.created_at := 60 * Time.us_per_second;
     Vote.option_id := option_id; Vote.user_id := user_id |}.

Definition alice : User.t := {| User.id := 1; User.username := "alice" |}.

(** One poll seen once, with three votes on its first option. *)
Definition busy : Session :=
  {| users := [alice];
     polls := [mk_poll 1 1];
     options :=
       [ {| Option.id := 1; Option.text := "Tea"; Option.poll_id := 1 |};
         {| Option.id := 2; Option.text := "Coffee"; Option.poll_id := 1 |} ];
     votes := [mk_vote 1 1 1; mk_vote 2 1 2; mk_vote 3 1 3] |}.

(** One poll whose two options carry the same text. *)
Definition twins : Session :=
  {| users := [alice];
     polls := [mk_poll 1 10];
     options :=
       [ {| Option.id := 1; Option.text := "Yes"; Option.poll_id := 1 |};
         {| Option.id := 2; Option.text := "Yes"; Option.poll_id := 1 |} ];
     votes := [mk_vote 1 1 1; mk_vote 2 1 2; mk_vote 3 2 3] |}.

(** Two polls of user 1 and no vote at all. *)
Definition quiet : Session :=
  {| users := [alice];
     polls := [mk_poll 1 5; mk_poll 2 0];
     options :=
       [ {| Option.id := 1; Option.text := "Tea"; Option.poll_id := 1 |};
         {| Option.id := 2; Option.text := "Coffee"; Option.poll_id := 2 |} ];
     votes := [] |}.

(** Three polls of two users, with votes on two days. *)
Definition bob : User.t := {| User.id := 2; User.username := "bob" |}.

Definition vote_at (id option_id user_id : Z) (t : datetime) : Vote.t :=
  {| Vote.id := id; Vote.created_at := t;
     Vote.option_id := option_id; Vote.user_id := user_id |}.

Definition mixed : Session :=
  {| users := [alice; bob];
     polls :=
       [ mk_poll 1 4; mk_poll 2 0;
         {| Poll.id := 3; Poll.question := "Cats or dogs?";
            Poll.created_at := 0; Poll.owner_id := 2;
            Poll.view_count := None |} ];
     options :=
       [ {| Option.id := 1; Option.text := "Tea"; Option.poll_id := 1 |};
         {| Option.id := 2; Option.text := "Coffee"; Option.poll_id := 2 |};
         {| Option.id := 3; Option.text := "Cats"; Option.poll_id := 3 |} ];
     votes :=
       [ vote_at 1 1 1 hour_us;
         vote_at 2 2 2 (Time.us_per_day + 2 * hour_us);
         vote_at 3 2 3 (Time.us_per_day + 2 * hour_us + 1);
         vote_at 4 3 1 Time.us_per_day ] |}.

End Samples.

(** * Properties *)

(** ** Comparisons, [max] and [min] *)

(** Linear arithmetic over the rationals and over the reals. *)
Ltac qlra := Lqa.lra.
Ltac rlra := Lra.lra.

Lemma Qlt_bool_iff (a b : Q) : Py.Qlt_bool a b = true <-> (a < b)%Q.
Proof.
  unfold Py.Qlt_bool. rewrite negb_true_iff, <- not_true_iff_false, Qle_bool_iff.
  split; [apply Qnot_le_lt | apply Qlt_not_le].
Qed.

Lemma Qlt_bool_false_iff (a b : Q) : Py.Qlt_bool a b = false <-> (b <= a)%Q.
Proof.
  unfold Py.Qlt_bool. rewrite negb_false_iff. apply Qle_bool_iff.
Qed.

(** Case analysis on an innermost comparison, leaving the order fact in the
    context. *)
Ltac case_Qlt :=
  match goal with
  | |- context [Py.Qlt_bool ?a ?b] =>
      lazymatch a with context [Py.Qlt_bool _ _] => fail | _ => idtac end;
      lazymatch b with context [Py.Qlt_bool _ _] => fail | _ => idtac end;
      let E := fresh "E" in
      destruct (Py.Qlt_bool a b) eqn:E;
      [apply Qlt_bool_iff in E | apply Qlt_bool_false_iff in E]
  end.

Lemma py_max_bounds (a b : Q) : (a <= Py.max a b)%Q /\ (b <= Py.max a b)%Q.
Proof. unfold Py.max. case_Qlt; split; qlra. Qed.

Lemma py_min_bounds (a b : Q) : (Py.min a b <= a)%Q /\ (Py.min a b <= b)%Q.
Proof. unfold Py.min. case_Qlt; split; qlra. Qed.

Lemma py_min_glb (a b c : Q) : (c <= a)%Q -> (c <= b)%Q -> (c <= Py.min a b)%Q.
Proof. unfold Py.min. case_Qlt; auto. Qed.

(** ** Complexity factor *)

Lemma complexity_factor_value (n : Z) :
  (AnalyticsCalculator.complexity_factor n
   == if n <? 4 then 1 + inject_Z (n - 2) * (1 # 10) else 12 # 10)%Q.
Proof.
  unfold AnalyticsCalculator.complexity_factor, Py.min.
  destruct (Z.ltb_spec n 4) as [Hn | Hn]; case_Qlt; try reflexivity;
    exfalso; revert E; unfold Qle, Qlt, Qplus, Qmult, inject_Z; simpl; lia.
Qed.

(** C4, as the code has it: from two options on, the complexity factor of
    the engagement score lies in [1.0, 1.2]; with no option it is 0.8 and
    with one option 0.9, so over all option counts [>= 0] its range is
    [0.8, 1.2]. *)
Theorem complexity_factor_range (option_count : Z) :
  0 <= option_count ->
  ((8 # 10) <= AnalyticsCalculator.complexity_factor option_count <= 12 # 10)%Q
  /\ (2 <= option_count ->
      (1 <= AnalyticsCalculator.complexity_factor option_count)%Q)
  /\ (AnalyticsCalculator.complexity_factor 0 == 8 # 10)%Q
  /\ (AnalyticsCalculator.complexity_factor 1 == 9 # 10)%Q.
Proof.
  intros Hn.
  assert (Hpos : (0 <= inject_Z option_count)%Q)
    by (rewrite Zle_Qle in Hn; exact Hn).
  pose proof (complexity_factor_value option_count) as Hv.
  destruct (Z.ltb_spec option_count 4) as [H4 | H4].
  - assert (Hlt : (inject_Z option_count <= 4)%Q)
      by (change 4%Q with (inject_Z 4); rewrite <- Zle_Qle; lia).
    unfold Z.sub in Hv. rewrite inject_Z_plus in Hv.
    change (inject_Z (- (2))) with (- (2))%Q in Hv.
    repeat split; try reflexivity; [qlra | qlra |].
    intros H2. rewrite Zle_Qle in H2. change (inject_Z 2) with 2%Q in H2.
    qlra.
  - repeat split; try reflexivity; qlra.
Qed.

Lemma complexity_factor_range_witness :
  ((8 # 10) <= AnalyticsCalculator.complexity_factor 3 <= 12 # 10)%Q
  /\ (2 <= 3 -> (1 <= AnalyticsCalculator.complexity_factor 3)%Q)
  /\ (AnalyticsCalculator.complexity_factor 0 == 8 # 10)%Q
  /\ (AnalyticsCalculator.complexity_factor 1 == 9 # 10)%Q.
Proof. apply (complexity_factor_range 3). lia. Defined.

(** C4 as stated fails without options: the factor is 0.8, below 1.0. *)
Lemma complexity_factor_below_one :
  ~ (forall option_count : Z,
       0 <= option_count ->
       (1 <= AnalyticsCalculator.complexity_factor option_count <= 12 # 10)%Q).
Proof.
  intros H. destruct (H 0 ltac:(lia)) as [H1 _].
  vm_compute in H1. by apply H1.
Qed.

(** ** Engagement score *)

Lemma clamp_min_max (s : Q) : Py.min 100 (Py.max 0 s) = clamp s 0 100.
Proof.
  unfold clamp, Py.min, Py.max.
  repeat case_Qlt; try reflexivity; exfalso; qlra.
Qed.

(** C2, as the code has it: with at least one view, and no negative vote
    count, [calculate_engagement_score] is the clamped formula of the
    specification; without views it returns 0.0 whatever the other inputs,
    so the diversity and recency bonuses do not contribute then. *)
Theorem calculate_engagement_score_formula
    (votes views unique_voters : Z) (poll_age_hours : Q) (option_count : Z) :
  0 <= votes ->
  (views <> 0 ->
   AnalyticsCalculator.calculate_engagement_score
     votes views unique_voters poll_age_hours option_count
   = Spec.engagement_score
       votes views unique_voters poll_age_hours option_count)
  /\ (views = 0 ->
      AnalyticsCalculator.calculate_engagement_score
        votes views unique_voters poll_age_hours option_count
      = 0%Q).
Proof.
  intros Hvotes.
  unfold AnalyticsCalculator.calculate_engagement_score, Spec.engagement_score.
  split; intros Hviews.
  - apply Z.eqb_neq in Hviews. rewrite Hviews.
    fold (AnalyticsCalculator.complexity_factor option_count).
    rewrite clamp_min_max.
    destruct (Z.ltb_spec 0 votes) as [Hpos | Hzero].
    + assert (Hne : (votes =? 0) = false) by (apply Z.eqb_neq; lia).
      by rewrite Hne.
    + assert (He : (votes =? 0) = true) by (apply Z.eqb_eq; lia).
      by rewrite He.
  - apply Z.eqb_eq in Hviews. by rewrite Hviews.
Qed.

Lemma calculate_engagement_score_formula_witness :
  (10 <> 0 ->
   AnalyticsCalculator.calculate_engagement_score 4 10 3 48 3
   = Spec.engagement_score 4 10 3 48 3)
  /\ (10 = 0 ->
      AnalyticsCalculator.calculate_engagement_score 4 10 3 48 3 = 0%Q).
Proof. apply (calculate_engagement_score_formula 4 10 3 48 3). lia. Defined.

(** C2 as stated fails without views: one vote by one voter on a fresh
    two-option poll scores 0 in the code and 20 by the formula. *)
Lemma calculate_engagement_score_no_views :
  AnalyticsCalculator.calculate_engagement_score 1 0 1 0 2 = 0%Q
  /\ (Spec.engagement_score 1 0 1 0 2 == 20)%Q
  /\ ~ (forall (votes views unique_voters : Z) (age : Q) (option_count : Z),
          0 <= votes -> 0 <= views -> 0 <= unique_voters ->
          (0 <= age)%Q -> 0 <= option_count ->
          (AnalyticsCalculator.calculate_engagement_score
             votes views unique_voters age option_count
           == Spec.engagement_score
                votes views unique_voters age option_count)%Q).
Proof.
  split; [reflexivity | split; [reflexivity |]].
  intros H.
  specialize (H 1 0 1 0%Q 2 ltac:(lia) ltac:(lia) ltac:(lia)
                ltac:(discriminate) ltac:(lia)).
  vm_compute in H. discriminate H.
Qed.

(** ** Moving average *)

(** C8: a series shorter than the window comes back unchanged. *)
Theorem calculate_moving_average_short (values : list Q) (window_size : Z) :
  Py.len values < window_size ->
  DataAggregator.calculate_moving_average values window_size = Ok values.
Proof.
  intros Hshort. unfold DataAggregator.calculate_moving_average.
  apply Z.ltb_lt in Hshort. by rewrite Hshort.
Qed.

Lemma calculate_moving_average_short_witness :
  DataAggregator.calculate_moving_average [3; 1 # 2]%Q 3
  = Ok [3; 1 # 2]%Q.
Proof.
  apply (calculate_moving_average_short [3; 1 # 2]%Q 3).
  unfold Py.len. simpl. lia.
Defined.

(** ** Percentile rank *)

#[global] Instance round_half_even_proper :
  Proper (Qeq ==> eq) Py.round_half_even.
Proof.
  intros x y Hxy. unfold Py.round_half_even.
  rewrite (Qfloor_comp _ _ Hxy).
  assert (Hc : ((x - inject_Z (Qfloor y) ?= 1 # 2)
                = (y - inject_Z (Qfloor y) ?= 1 # 2))%Q)
    by (apply Qcompare_comp; [by rewrite Hxy | reflexivity]).
  by rewrite Hc.
Qed.

Lemma round_proper (x y : Q) (ndigits : nat) :
  (x == y)%Q -> Py.round x ndigits = Py.round y ndigits.
Proof.
  intros Hxy. unfold Py.round.
  assert (H : (x * inject_Z (10 ^ Z.of_nat ndigits)
               == y * inject_Z (10 ^ Z.of_nat ndigits))%Q) by (by rewrite Hxy).
  by rewrite (round_half_even_proper _ _ H).
Qed.

Lemma insert_sorted_Forall (P : Q -> Prop) (x : Q) (l : list Q) :
  P x -> Forall P l -> Forall P (Py.insert_sorted x l).
Proof.
  intros Hx Hl. induction Hl as [| y l Hy Hl IH]; simpl.
  - by constructor.
  - destruct (Py.Qlt_bool y x); constructor; auto.
Qed.

Lemma sorted_Forall (P : Q -> Prop) (l : list Q) :
  Forall P l -> Forall P (Py.sorted l).
Proof.
  unfold Py.sorted. induction 1 as [| x l Hx Hl IH]; simpl.
  - constructor.
  - by apply insert_sorted_Forall.
Qed.

Lemma insert_sorted_length (x : Q) (l : list Q) :
  length (Py.insert_sorted x l) = S (length l).
Proof.
  induction l as [| y l IH]; simpl; [done |].
  destruct (Py.Qlt_bool y x); simpl; by rewrite ?IH.
Qed.

Lemma sorted_length (l : list Q) : length (Py.sorted l) = length l.
Proof.
  unfold Py.sorted. induction l as [| x l IH]; simpl; [done |].
  by rewrite insert_sorted_length, IH.
Qed.

Lemma filter_below_all_equal (v : Q) (l : list Q) :
  Forall (fun x => (x == v)%Q) l ->
  List.filter (fun x => Py.Qlt_bool x v) l = [].
Proof.
  induction 1 as [| x l Hx Hl IH]; simpl; [done |].
  assert (E : Py.Qlt_bool x v = false)
    by (apply Qlt_bool_false_iff; rewrite Hx; apply Qle_refl).
  by rewrite E.
Qed.

Lemma filter_equal_all_equal (v : Q) (l : list Q) :
  Forall (fun x => (x == v)%Q) l ->
  List.filter (fun x => Qeq_bool x v) l = l.
Proof.
  induction 1 as [| x l Hx Hl IH]; simpl; [done |].
  apply Qeq_bool_iff in Hx. rewrite Hx. by rewrite IH.
Qed.

(** C7: in a non-empty dataset all of whose elements equal [value], the
    percentile rank of [value] is 50. *)
Theorem calculate_percentile_rank_all_equal (value : Q) (dataset : list Q) :
  dataset <> [] ->
  Forall (fun x => (x == value)%Q) dataset ->
  (AnalyticsCalculator.calculate_percentile_rank value dataset == 50)%Q.
Proof.
  intros Hne Hall. unfold AnalyticsCalculator.calculate_percentile_rank.
  destruct dataset as [| x rest]; [done |].
  set (data := x :: rest) in *.
  pose proof (sorted_Forall _ _ Hall) as Hsorted.
  rewrite (filter_below_all_equal _ _ Hsorted).
  rewrite (filter_equal_all_equal _ _ Hsorted).
  set (n := inject_Z (Py.len (Py.sorted data))).
  assert (Hn : (0 < n)%Q).
  { unfold n, Py.len. rewrite sorted_length.
    change 0%Q with (inject_Z 0). rewrite <- Zlt_Qlt.
    unfold data. simpl length. lia. }
  rewrite (round_proper _ 50 2).
  - reflexivity.
  - change (inject_Z (Py.len [])) with 0%Q. field.
    intros H0. rewrite H0 in Hn. by apply Qlt_irrefl in Hn.
Qed.

Lemma calculate_percentile_rank_all_equal_witness :
  (AnalyticsCalculator.calculate_percentile_rank (7 # 2) [7 # 2; 14 # 4; 7 # 2]
   == 50)%Q.
Proof.
  apply (calculate_percentile_rank_all_equal (7 # 2) [7 # 2; 14 # 4; 7 # 2]%Q).
  - discriminate.
  - repeat (apply Forall_cons; split; [reflexivity |]). apply Forall_nil.
    exact I.
Defined.

(** ** Anomaly detection *)

Lemma Rsquare_lt_iff (x y : R) :
  (0 <= x)%R -> (0 <= y)%R -> (x * x < y * y)%R <-> (x < y)%R.
Proof.
  intros Hx Hy. split; intros H.
  - destruct (Rle_lt_dec y x) as [Hle | Hlt]; [| done].
    exfalso. Lra.nra.
  - Lra.nra.
Qed.

Lemma Q2R_neg (a : Q) : Qle_bool 0 a = false -> (Q2R a < 0)%R.
Proof.
  intros Ea. rewrite <- RMicromega.Q2R_0. apply Qlt_Rlt, Qnot_le_lt.
  rewrite <- Qle_bool_iff. by rewrite Ea.
Qed.

Lemma Q2R_nonneg (a : Q) : Qle_bool 0 a = true -> (0 <= Q2R a)%R.
Proof.
  intros Ea. rewrite <- RMicromega.Q2R_0. by apply Qle_Rle, Qle_bool_iff.
Qed.

Lemma Qlt_Rlt_iff (a b : Q) : (a < b)%Q <-> (Q2R a < Q2R b)%R.
Proof. split; [apply Qlt_Rlt | apply Rlt_Qlt]. Qed.

(** The rational test [Py.gt_mul_sqrt] is the comparison against the real
    square root. *)
Lemma gt_mul_sqrt_spec (a t v : Q) :
  (0 <= v)%Q ->
  Py.gt_mul_sqrt a t v = true <-> (Q2R a > Q2R t * sqrt (Q2R v))%R.
Proof.
  intros Hv. apply Qle_Rle in Hv. rewrite RMicromega.Q2R_0 in Hv.
  pose proof (sqrt_pos (Q2R v)) as Hs.
  pose proof (sqrt_sqrt (Q2R v) Hv) as Hss.
  set (s := sqrt (Q2R v)) in *.
  unfold Py.gt_mul_sqrt.
  destruct (Qle_bool 0 t) eqn:Et; destruct (Qle_bool 0 a) eqn:Ea.
  - apply Q2R_nonneg in Et, Ea.
    rewrite Qlt_bool_iff, Qlt_Rlt_iff, !Q2R_mult, <- Hss.
    replace (Q2R t * Q2R t * (s * s))%R
      with ((Q2R t * s) * (Q2R t * s))%R by ring.
    apply Rsquare_lt_iff; [Lra.nra | done].
  - apply Q2R_nonneg in Et. apply Q2R_neg in Ea.
    split; [discriminate | intros H; exfalso; Lra.nra].
  - apply Q2R_neg in Et. apply Q2R_nonneg in Ea.
    rewrite orb_true_iff, !Qlt_bool_iff, !Qlt_Rlt_iff, RMicromega.Q2R_0.
    split.
    + intros [H | H].
      * Lra.nra.
      * assert (0 < s)%R by (by apply sqrt_lt_R0). Lra.nra.
    + intros H.
      destruct (Rle_lt_dec (Q2R a) 0) as [Ha0 | Ha0]; [right | by left].
      destruct (Rle_lt_dec (Q2R v) 0); [exfalso; Lra.nra | done].
  - apply Q2R_neg in Et, Ea.
    rewrite Qlt_bool_iff, Qlt_Rlt_iff, !Q2R_mult, <- Hss.
    replace (Q2R t * Q2R t * (s * s))%R
      with ((- (Q2R t * s)) * (- (Q2R t * s)))%R by ring.
    replace (Q2R a * Q2R a)%R with ((- Q2R a) * (- Q2R a))%R by ring.
    rewrite Rsquare_lt_iff; [Lra.lra | Lra.lra | Lra.nra].
Qed.

Lemma Qsquare_nonneg (y : Q) : (0 <= y * y)%Q.
Proof. destruct y as [n d]. unfold Qle, Qmult. simpl. nia. Qed.

Lemma sum_from_nonneg (l : list Q) (acc : Q) :
  Forall (fun x => (0 <= x)%Q) l -> (0 <= acc)%Q ->
  (0 <= fold_left Qplus l acc)%Q.
Proof.
  intros Hl. revert acc. induction Hl as [| x l Hx Hl IH]; simpl; intros acc Hacc.
  - exact Hacc.
  - apply IH. qlra.
Qed.

Lemma variance_nonneg (values : list Q) :
  (0 <= DataAggregator.variance values)%Q.
Proof.
  unfold DataAggregator.variance, Qdiv.
  apply Qmult_le_0_compat.
  - apply sum_from_nonneg; [| qlra].
    apply Forall_map, Forall_forall. intros x _. simpl.
    apply Qsquare_nonneg.
  - apply Qinv_le_0_compat. change 0%Q with (inject_Z 0).
    rewrite <- Zle_Qle. unfold Py.len. lia.
Qed.

(** What [detect_anomalies] flags, in real-number terms: the points whose
    distance to the mean is strictly more than [threshold_std] standard
    deviations. *)
Lemma detect_anomalies_flags
    (values : list Q) (threshold_std : Q) (i : nat) (x : Q) :
  In (i, x) (DataAggregator.detect_anomalies values threshold_std) <->
  3 <= Py.len values /\ values !! i = Some x
  /\ (Q2R (Py.abs (x - DataAggregator.mean values))
      > Q2R threshold_std * sqrt (Q2R (DataAggregator.variance values)))%R.
Proof.
  unfold DataAggregator.detect_anomalies.
  destruct (Z.ltb_spec (Py.len values) 3) as [Hlt | Hge].
  - simpl. split; [done | lia].
  - rewrite filter_In, <- list_elem_of_In. unfold Py.enumerate.
    rewrite elem_of_lookup_imap. simpl.
    rewrite (gt_mul_sqrt_spec _ _ _ (variance_nonneg values)).
    split.
    + intros [(j & y & Heq & Hj) Hgt]. inversion Heq; subst. auto.
    + intros (_ & Hi & Hgt). split; [| done]. by exists i, x.
Qed.

Lemma gt_mul_sqrt_nonneg (a t v : Q) :
  (0 <= t)%Q -> (0 <= a)%Q ->
  Py.gt_mul_sqrt a t v = Py.Qlt_bool (t * t * v) (a * a).
Proof.
  intros Ht Ha. unfold Py.gt_mul_sqrt.
  apply Qle_bool_iff in Ht, Ha. by rewrite Ht, Ha.
Qed.

(** C5, as the code has it in exact arithmetic: on [1, 1, 1, 1, 100] the
    point 100 lies at exactly two standard deviations from the mean
    (79.2 = 2 * 39.6), so with [threshold_std = 2] the strict test flags
    nothing; for any threshold from 0.5 up to, but excluding, 2 exactly the
    point at index 4 is flagged; and a series of fewer than 3 values gives
    the empty list. *)
Theorem detect_anomalies_outlier :
  DataAggregator.detect_anomalies [1; 1; 1; 1; 100]%Q 2 = []
  /\ (forall t : Q,
        (1 # 2 <= t)%Q -> (t < 2)%Q ->
        DataAggregator.detect_anomalies [1; 1; 1; 1; 100]%Q t
        = [(4%nat, 100%Q)])
  /\ (forall (values : list Q) (t : Q),
        Py.len values < 3 -> DataAggregator.detect_anomalies values t = []).
Proof.
  split; [reflexivity | split].
  - intros t Hlo Hhi. unfold DataAggregator.detect_anomalies.
    change (Py.len [1; 1; 1; 1; 100]%Q <? 3) with false. cbv iota.
    set (m := DataAggregator.mean [1; 1; 1; 1; 100]%Q).
    set (v := DataAggregator.variance [1; 1; 1; 1; 100]%Q).
    assert (Hv : (v == 39204 # 25)%Q) by reflexivity.
    assert (Hone : (Py.abs (1 - m) == 99 # 5)%Q) by reflexivity.
    assert (Hbig : (Py.abs (100 - m) == 396 # 5)%Q) by reflexivity.
    assert (Eone : Py.gt_mul_sqrt (Py.abs (1 - m)) t v = false).
    { rewrite gt_mul_sqrt_nonneg; [| qlra | rewrite Hone; qlra].
      apply Qlt_bool_false_iff. rewrite Hv, Hone. Lqa.nra. }
    assert (Ebig : Py.gt_mul_sqrt (Py.abs (100 - m)) t v = true).
    { rewrite gt_mul_sqrt_nonneg; [| qlra | rewrite Hbig; qlra].
      apply Qlt_bool_iff. rewrite Hv, Hbig. Lqa.nra. }
    change (Py.enumerate [1; 1; 1; 1; 100]%Q)
      with [(0%nat, 1%Q); (1%nat, 1%Q); (2%nat, 1%Q); (3%nat, 1%Q);
            (4%nat, 100%Q)].
    cbn [List.filter snd]. by rewrite Eone, Ebig.
  - intros values t Hshort. unfold DataAggregator.detect_anomalies.
    apply Z.ltb_lt in Hshort. by rewrite Hshort.
Qed.

Lemma detect_anomalies_outlier_witness :
  DataAggregator.detect_anomalies [1; 1; 1; 1; 100]%Q 1 = [(4%nat, 100%Q)]
  /\ DataAggregator.detect_anomalies [5; 9]%Q 2 = [].
Proof.
  destruct detect_anomalies_outlier as (_ & Hmid & Hshort). split.
  - apply (Hmid 1%Q); [discriminate | reflexivity].
  - apply (Hshort [5; 9]%Q 2%Q). unfold Py.len. simpl. lia.
Defined.

(** C5 as stated fails: with [threshold_std = 2] the series
    [1, 1, 1, 1, 100] has no flagged point, so index 4 is not returned. *)
Lemma detect_anomalies_outlier_not_flagged :
  DataAggregator.detect_anomalies [1; 1; 1; 1; 100]%Q 2 <> [(4%nat, 100%Q)].
Proof. vm_compute. discriminate. Qed.

(** ** Trend direction *)




(** The two slices of [calculate_trend_direction] are the first [w] and
    the last [w] points. *)
Lemma slice_first {A} (l : list A) (w : Z) :
  0 <= w <= Py.len l -> Py.slice l None (Some w) = take (Z.to_nat w) l.
Proof.
  intros Hw. unfold Py.slice, Py.slice_index.
  assert (E : (w <? 0) = false) by (apply Z.ltb_ge; lia).
  rewrite E, Z.min_l, Z.sub_0_r by lia. reflexivity.
Qed.

Lemma slice_last {A} (l : list A) (w : Z) :
  0 < w <= Py.len l ->
  Py.slice l (Some (- w)) None = drop (length l - Z.to_nat w) l.
Proof.
  intros Hw. unfold Py.slice, Py.slice_index, Py.len in *.
  assert (E : (- w <? 0) = true) by (apply Z.ltb_lt; lia).
  rewrite E, Z.max_r by lia.
  replace (Z.to_nat (Z.of_nat (length l) + - w))
    with (length l - Z.to_nat w)%nat by lia.
  apply take_ge. rewrite length_drop. lia.
Qed.





(** The scenario of the specification: daily counts 10, 5, 20, 25 have
    half means 7.5 and 22.5 and an increasing trend. *)
Example engagement_trend_scenario :
  AnalyticsService._calculate_engagement_trend
    [ {| date := "2025-01-06"; vote_count := 10; dv_unique_voters := 4 |};
      {| date := "2025-01-07"; vote_count := 5; dv_unique_voters := 5 |};
      {| date := "2025-01-08"; vote_count := 20; dv_unique_voters := 9 |};
      {| date := "2025-01-09"; vote_count := 25; dv_unique_voters := 12 |} ]
  = "increasing".
Proof. reflexivity. Qed.

(** ** The vote distribution as a dictionary *)

Section Dict.

Implicit Types (d : gmap string Z) (rows : list (string * Z)) (t : string).

Lemma sum_values_empty : AnalyticsService.sum_values ∅ = 0.
Proof. unfold AnalyticsService.sum_values. by rewrite map_fold_empty. Qed.

Lemma sum_values_insert d t (c : Z) :
  AnalyticsService.sum_values (<[t := c]> d)
  = c + AnalyticsService.sum_values (delete t d).
Proof.
  unfold AnalyticsService.sum_values.
  rewrite <- insert_delete_eq.
  rewrite map_fold_insert_L; [lia | intros; lia | apply lookup_delete_eq].
Qed.

Lemma sum_values_nonneg d :
  map_Forall (fun _ v => 0 <= v) d -> 0 <= AnalyticsService.sum_values d.
Proof.
  unfold AnalyticsService.sum_values.
  apply (map_fold_weak_ind
           (fun r m => map_Forall (fun _ v => 0 <= v) m -> 0 <= r)).
  - lia.
  - intros i x m r Hi IH Hall.
    apply map_Forall_insert in Hall as [Hx Hm]; [| done].
    specialize (IH Hm). lia.
Qed.

(** Rows that do not mention a key leave its entry alone. *)
Lemma fold_rows_lookup_other rows d t :
  t ∉ rows.*1 ->
  fold_left (fun d kv => <[kv.1 := kv.2]> d) rows d !! t = d !! t.
Proof.
  revert d. induction rows as [| [k v] rows IH]; intros d Hnot; [done |].
  simpl in *. apply not_elem_of_cons in Hnot as [Hne Hnot].
  rewrite IH by done. by rewrite lookup_insert_ne.
Qed.

(** The entry of a text is the count of the last row carrying it. *)
Lemma dict_of_rows_last rows (pre post : list (string * Z)) t (c : Z) :
  rows = pre ++ (t, c) :: post -> t ∉ post.*1 ->
  AnalyticsService.dict_of_rows rows !! t = Some c.
Proof.
  intros -> Hnot. unfold AnalyticsService.dict_of_rows.
  rewrite fold_left_app. cbn [fold_left].
  rewrite fold_rows_lookup_other by done.
  apply lookup_insert_eq.
Qed.


(** Folding rows into [d] sums the kept rows and what the rows leave of
    [d]. *)
Lemma sum_values_fold_rows rows d :
  AnalyticsService.sum_values
    (fold_left (fun d kv => <[kv.1 := kv.2]> d) rows d)
  = Spec.row_total (Spec.kept_rows rows)
    + AnalyticsService.sum_values
        (filter (fun kv : string * Z => kv.1 ∉ rows.*1) d).
Proof.
  revert d. induction rows as [| [t c] rest IH]; intros d.
  - simpl. rewrite map_filter_id; [done |].
    intros i x _. simpl. apply not_elem_of_nil.
  - cbn [fold_left Spec.kept_rows fst snd].
    rewrite IH.
    destruct (bool_decide (t ∈ rest.*1)) eqn:Hin.
    + apply bool_decide_eq_true in Hin.
      rewrite map_filter_insert_not'; [| by intros H; apply H | by intros y _ H; apply H].
      f_equal. f_equal. apply map_filter_ext. intros i x _. simpl.
      rewrite not_elem_of_cons. split; [| tauto].
      intros H. split; [| done]. by intros ->.
    + apply bool_decide_eq_false in Hin.
      rewrite map_filter_insert_True by done.
      rewrite sum_values_insert, <- map_filter_delete.
      unfold Spec.row_total. cbn [fmap list_fmap foldr snd].
      assert (Heq : filter (fun kv : string * Z => kv.1 ∉ rest.*1)
                           (delete t d)
                    = filter (fun kv : string * Z => kv.1 ∉ t :: rest.*1) d).
      { apply map_filter_strong_ext. intros i x. simpl.
        rewrite lookup_delete_Some, not_elem_of_cons.
        split; [intros (? & ? & ?) | intros ((? & ?) & ?)]; auto. }
      rewrite Heq. cbn [fst]. lia.
Qed.

(** The sum of the dictionary's values is the sum over the kept rows. *)
Lemma sum_values_dict_of_rows rows :
  AnalyticsService.sum_values (AnalyticsService.dict_of_rows rows)
  = Spec.row_total (Spec.kept_rows rows).
Proof.
  unfold AnalyticsService.dict_of_rows.
  rewrite sum_values_fold_rows, map_filter_empty, sum_values_empty. lia.
Qed.


Lemma row_total_kept_nonneg rows :
  Forall (fun r => 0 <= r.2) rows ->
  0 <= Spec.row_total (Spec.kept_rows rows).
Proof.
  unfold Spec.row_total. induction 1 as [| [t c] rest Hc Hrest IH]; [done |].
  cbn [Spec.kept_rows fst].
  destruct (bool_decide (t ∈ rest.*1)); cbn [fmap list_fmap foldr snd] in *;
    lia.
Qed.



End Dict.

(** ** Rounding *)

Lemma round_half_even_bounds (a b : Z) (x : Q) :
  (inject_Z a <= x)%Q -> (x <= inject_Z b)%Q ->
  a <= Py.round_half_even x <= b.
Proof.
  intros Ha Hb. unfold Py.round_half_even.
  pose proof (Qfloor_le x) as Hfl. pose proof (Qlt_floor x) as Hlt.
  set (f := Qfloor x) in *.
  assert (Haf : a <= f).
  { assert (H : (inject_Z a < inject_Z (f + 1))%Q) by qlra.
    rewrite <- Zlt_Qlt in H. lia. }
  assert (Hfb : f <= b).
  { assert (H : (inject_Z f <= inject_Z b)%Q) by qlra.
    by rewrite <- Zle_Qle in H. }
  assert (Hup : (1 # 2 <= x - inject_Z f)%Q -> f + 1 <= b).
  { intros Hhalf.
    assert (H : (inject_Z f < inject_Z b)%Q) by qlra.
    rewrite <- Zlt_Qlt in H. lia. }
  destruct (x - inject_Z f ?= 1 # 2)%Q eqn:Ec.
  - apply Qeq_alt in Ec.
    destruct (Z.even f); [lia |].
    split; [lia | apply Hup; rewrite Ec; apply Qle_refl].
  - lia.
  - apply Qgt_alt in Ec. split; [lia | apply Hup; qlra].
Qed.

Lemma round_percent_bounds (s : Q) :
  (0 <= s)%Q -> (s <= 100)%Q ->
  (0 <= Py.round s 2)%Q /\ (Py.round s 2 <= 100)%Q.
Proof.
  intros H0 H100. unfold Py.round.
  change (inject_Z (10 ^ Z.of_nat 2)) with 100%Q.
  destruct (round_half_even_bounds 0 10000 (s * 100)) as [Hlo Hhi].
  { change (inject_Z 0) with 0%Q. qlra. }
  { change (inject_Z 10000) with 10000%Q. qlra. }
  rewrite Zle_Qle in Hlo, Hhi.
  change (inject_Z 0) with 0%Q in Hlo.
  change (inject_Z 10000) with 10000%Q in Hhi.
  split.
  - apply Qle_shift_div_l; [reflexivity | qlra].
  - apply Qle_shift_div_r; [reflexivity | qlra].
Qed.

(** ** Poll detail *)

Section PollDetail.

Variable db : Session.

Lemma len_nonneg {A} (l : list A) : 0 <= Py.len l.
Proof. unfold Py.len. lia. Qed.

Lemma vote_distribution_rows_nonneg (poll_id : Z) :
  Forall (fun r => 0 <= r.2)
         (AnalyticsService.vote_distribution_rows db poll_id).
Proof.
  unfold AnalyticsService.vote_distribution_rows.
  apply Forall_map, Forall_forall. intros o _. simpl. apply len_nonneg.
Qed.

Lemma distribution_total_nonneg (poll_id : Z) :
  0 <= AnalyticsService.sum_values
         (AnalyticsService._get_vote_distribution db poll_id).
Proof.
  unfold AnalyticsService._get_vote_distribution.
  rewrite sum_values_dict_of_rows.
  apply row_total_kept_nonneg, vote_distribution_rows_nonneg.
Qed.

Lemma performance_score_range (now : datetime) (poll_id : Z) :
  (0 <= AnalyticsService._calculate_poll_performance_score db now poll_id)%Q
  /\ (AnalyticsService._calculate_poll_performance_score db now poll_id
      <= 100)%Q.
Proof.
  unfold AnalyticsService._calculate_poll_performance_score.
  destruct (AnalyticsService.poll_by_id db poll_id) as [poll |];
    [| split; discriminate].
  set (votes := AnalyticsService.poll_vote_count db poll_id).
  assert (Hvotes : (0 <= inject_Z votes)%Q).
  { change 0%Q with (inject_Z 0). rewrite <- Zle_Qle. apply len_nonneg. }
  set (rate := if 0 <? AnalyticsService.poll_views poll
               then (inject_Z votes
                     / inject_Z (AnalyticsService.poll_views poll))%Q
               else 0%Q).
  assert (Hrate : (0 <= rate)%Q).
  { unfold rate.
    destruct (Z.ltb_spec 0 (AnalyticsService.poll_views poll)) as [Hv | Hv];
      [| apply Qle_refl].
    apply Qle_shift_div_l; [| qlra].
    change 0%Q with (inject_Z 0). by rewrite <- Zlt_Qlt. }
  set (recency :=
         Py.max 0 (1 - inject_Z (Time.days (now - Poll.created_at poll))
                       / 30)%Q).
  assert (Hrec : (0 <= recency)%Q) by apply py_max_bounds.
  apply round_percent_bounds.
  - apply py_min_glb; [discriminate | qlra].
  - apply py_min_bounds.
Qed.

End PollDetail.

Lemma hours_positive_iff (d : Z) :
  (0 < Time.total_seconds d / 3600)%Q <-> 0 < d.
Proof.
  unfold Time.total_seconds.
  change (inject_Z Time.us_per_second) with 1000000%Q.
  rewrite Zlt_Qlt. change (inject_Z 0) with 0%Q.
  split; intros H.
  - destruct (Qlt_le_dec 0 (inject_Z d)) as [Hpos | Hneg]; [done |].
    exfalso.
    assert (Hle : (inject_Z d / 1000000 / 3600 <= 0)%Q).
    { apply Qle_shift_div_r; [reflexivity |].
      apply Qle_shift_div_r; [reflexivity | qlra]. }
    qlra.
  - apply Qlt_shift_div_l; [reflexivity |].
    apply Qlt_shift_div_l; [reflexivity | qlra].
Qed.

(** C1, as the code has it: whenever [get_poll_analytics] finds the poll,
    its result has [performance_score] in [0, 100] and a non-negative
    [engagement_rate]; the engagement rate is at most 100 when
    [total_votes] does not exceed [total_views], and is above 100 when
    [total_votes] exceeds a positive [total_views]: nothing caps it. *)
Theorem poll_analytics_ranges
    (db : Session) (now_score now : datetime) (poll_id : Z) (poll : Poll.t) :
  AnalyticsService.poll_by_id db poll_id = Some poll ->
  exists pa : PollAnalytics,
    AnalyticsService.get_poll_analytics db now_score now poll_id = Ok pa
    /\ (0 <= performance_score pa)%Q /\ (performance_score pa <= 100)%Q
    /\ (0 <= engagement_rate pa)%Q
    /\ (total_votes pa <= total_views pa -> (engagement_rate pa <= 100)%Q)
    /\ (0 < total_views pa < total_votes pa ->
        (100 < engagement_rate pa)%Q).
Proof.
  intros Hpoll. unfold AnalyticsService.get_poll_analytics. rewrite Hpoll.
  eexists. split; [reflexivity |].
  cbn [performance_score engagement_rate total_votes total_views].
  pose proof (distribution_total_nonneg db poll_id) as Htotal.
  set (total := AnalyticsService.sum_values
                  (AnalyticsService._get_vote_distribution db poll_id)) in *.
  set (views := AnalyticsService.poll_views poll).
  assert (Hq : (0 <= inject_Z total)%Q).
  { change 0%Q with (inject_Z 0). by rewrite <- Zle_Qle. }
  split; [apply performance_score_range |].
  split; [apply performance_score_range |].
  destruct (Z.ltb_spec 0 views) as [Hv | Hv].
  - assert (Hvq : (0 < inject_Z views)%Q).
    { change 0%Q with (inject_Z 0). by rewrite <- Zlt_Qlt. }
    split.
    + apply Qmult_le_0_compat; [| discriminate].
      apply Qle_shift_div_l; [done | qlra].
    + split.
      * intros Hle. rewrite Zle_Qle in Hle.
        assert (Hr : (inject_Z total / inject_Z views <= 1)%Q).
        { apply Qle_shift_div_r; [done | qlra]. }
        qlra.
      * intros [_ Hlt]. rewrite Zlt_Qlt in Hlt.
        assert (Hr : (1 < inject_Z total / inject_Z views)%Q).
        { apply Qlt_shift_div_l; [done | qlra]. }
        qlra.
  - split; [apply Qle_refl |]. split; [intros _; discriminate | lia].
Qed.

Lemma poll_analytics_ranges_witness :
  exists pa : PollAnalytics,
    AnalyticsService.get_poll_analytics
      Samples.busy Samples.hour_us Samples.hour_us 1 = Ok pa
    /\ (0 <= performance_score pa)%Q /\ (performance_score pa <= 100)%Q
    /\ (0 <= engagement_rate pa)%Q
    /\ (total_votes pa <= total_views pa -> (engagement_rate pa <= 100)%Q)
    /\ (0 < total_views pa < total_votes pa ->
        (100 < engagement_rate pa)%Q).
Proof.
  apply (poll_analytics_ranges Samples.busy Samples.hour_us Samples.hour_us
           1 (Samples.mk_poll 1 1)).
  reflexivity.
Defined.

(** C1 as stated fails when votes outnumber views: a poll seen once with
    three votes has an engagement rate of 300. *)
Lemma engagement_rate_above_100 :
  ~ (forall (db : Session) (now_score now : datetime) (poll_id : Z)
            (poll : Poll.t) (pa : PollAnalytics),
       AnalyticsService.poll_by_id db poll_id = Some poll ->
       0 <= AnalyticsService.poll_views poll ->
       Poll.created_at poll <= now_score -> Poll.created_at poll <= now ->
       AnalyticsService.get_poll_analytics db now_score now poll_id = Ok pa ->
       ((0 <= engagement_rate pa)%Q /\ (engagement_rate pa <= 100)%Q)
       /\ (0 <= performance_score pa)%Q /\ (performance_score pa <= 100)%Q).
Proof.
  intros H.
  destruct (H Samples.busy Samples.hour_us Samples.hour_us 1
              (Samples.mk_poll 1 1) _
              eq_refl ltac:(discriminate) ltac:(discriminate)
              ltac:(discriminate) eq_refl) as [[_ Hle] _].
  vm_compute in Hle. by apply Hle.
Qed.

(** C3, as the code has it: whenever [get_poll_analytics] finds the poll,
    [vote_velocity] is 0.0 if no time has passed since the creation of the
    poll (or the creation lies ahead), and [total_votes /
    hours_since_creation] for every poll of positive age, be it younger or
    older than one hour. *)
Theorem vote_velocity_by_age
    (db : Session) (now_score now : datetime) (poll_id : Z) (poll : Poll.t) :
  AnalyticsService.poll_by_id db poll_id = Some poll ->
  exists pa : PollAnalytics,
    AnalyticsService.get_poll_analytics db now_score now poll_id = Ok pa
    /\ (now <= Poll.created_at poll -> vote_velocity pa = 0%Q)
    /\ (Poll.created_at poll < now ->
        vote_velocity pa
        = (inject_Z (total_votes pa)
           / (Time.total_seconds (now - Poll.created_at poll) / 3600))%Q).
Proof.
  intros Hpoll. unfold AnalyticsService.get_poll_analytics. rewrite Hpoll.
  eexists. split; [reflexivity |].
  cbn [vote_velocity total_votes].
  pose proof (hours_positive_iff (now - Poll.created_at poll)) as Hiff.
  split; intros Hage.
  - assert (E : Py.Qlt_bool
                  0 (Time.total_seconds (now - Poll.created_at poll) / 3600)
                = false).
    { apply not_true_iff_false. rewrite Qlt_bool_iff, Hiff. lia. }
    by rewrite E.
  - assert (E : Py.Qlt_bool
                  0 (Time.total_seconds (now - Poll.created_at poll) / 3600)
                = true).
    { rewrite Qlt_bool_iff, Hiff. lia. }
    by rewrite E.
Qed.

Lemma vote_velocity_by_age_witness :
  exists pa : PollAnalytics,
    AnalyticsService.get_poll_analytics
      Samples.busy Samples.hour_us (3 * Samples.hour_us) 1 = Ok pa
    /\ (3 * Samples.hour_us <= 0 -> vote_velocity pa = 0%Q)
    /\ (0 < 3 * Samples.hour_us ->
        vote_velocity pa
        = (inject_Z (total_votes pa)
           / (Time.total_seconds (3 * Samples.hour_us - 0) / 3600))%Q).
Proof.
  apply (vote_velocity_by_age Samples.busy Samples.hour_us
           (3 * Samples.hour_us) 1 (Samples.mk_poll 1 1)).
  reflexivity.
Defined.

(** Half an hour after its creation, the sample poll with three votes has
    a velocity of 6 votes per hour. *)
Example vote_velocity_half_hour :
  exists pa : PollAnalytics,
    AnalyticsService.get_poll_analytics
      Samples.busy (Samples.hour_us / 2) (Samples.hour_us / 2) 1 = Ok pa
    /\ (vote_velocity pa == 6)%Q.
Proof.
  destruct (AnalyticsService.get_poll_analytics
              Samples.busy (Samples.hour_us / 2) (Samples.hour_us / 2) 1)
    as [pa | e] eqn:E; vm_compute in E; [| discriminate E].
  injection E as <-. eexists. split; reflexivity.
Qed.

(** C3 as stated fails for a poll aged half an hour: with three votes its
    velocity is 6 votes per hour, not 0. *)
Lemma vote_velocity_young_poll :
  ~ (forall (db : Session) (now_score now : datetime) (poll_id : Z)
            (poll : Poll.t) (pa : PollAnalytics),
       AnalyticsService.poll_by_id db poll_id = Some poll ->
       AnalyticsService.get_poll_analytics db now_score now poll_id = Ok pa ->
       0 <= now - Poll.created_at poll < Samples.hour_us ->
       (vote_velocity pa == 0)%Q).
Proof.
  intros H. destruct vote_velocity_half_hour as (pa & Hrun & Hsix).
  assert (Hage : 0 <= Samples.hour_us / 2
                      - Poll.created_at (Samples.mk_poll 1 1)
                 < Samples.hour_us) by (vm_compute; split; congruence).
  specialize (H Samples.busy (Samples.hour_us / 2) (Samples.hour_us / 2) 1
                (Samples.mk_poll 1 1) pa eq_refl Hrun Hage).
  rewrite H in Hsix. discriminate Hsix.
Qed.

(** *** Rows of the grouped query and votes of the poll *)

Section GroupedRows.

Variable db : Session.

(** With distinct option ids, at most one option of the table carries a
    given id, and [List.find] returns it. *)
Lemma count_options_with_id (opts : list Option.t) (poll_id k : Z) :
  NoDup (map Option.id opts) ->
  foldr Z.add 0
    (map (fun o => if k =? Option.id o then 1 else 0)
         (List.filter (fun o => Option.poll_id o =? poll_id) opts))
  = match List.find (fun o => Option.id o =? k) opts with
    | Some o => if Option.poll_id o =? poll_id then 1 else 0
    | None => 0
    end.
Proof.
  induction opts as [| o opts IH]; intros Hnd; [done |].
  cbn [map] in Hnd. apply NoDup_cons in Hnd as [Hfresh Hnd].
  specialize (IH Hnd). cbn [List.filter List.find].
  destruct (Z.eqb_spec (Option.id o) k) as [Hk | Hk].
  - assert (Hnone : List.find (fun o => Option.id o =? k) opts = None).
    { destruct (List.find _ opts) as [o' |] eqn:E; [| done].
      apply find_some in E as [Hin Heq]. apply Z.eqb_eq in Heq.
      exfalso. apply Hfresh. rewrite Hk, <- Heq.
      apply list_elem_of_In, in_map, Hin. }
    rewrite Hnone in IH.
    destruct (Option.poll_id o =? poll_id); [| done].
    cbn [map foldr]. rewrite IH.
    assert (E : (k =? Option.id o) = true) by (apply Z.eqb_eq; lia).
    by rewrite E.
  - destruct (Option.poll_id o =? poll_id); [| done].
    cbn [map foldr]. rewrite IH.
    assert (E : (k =? Option.id o) = false) by (apply Z.eqb_neq; lia).
    by rewrite E.
Qed.

Lemma row_total_cons_vote (v : Vote.t) (vs : list Vote.t) (opts : list Option.t) :
  foldr Z.add 0
    (map (fun o =>
            Py.len (List.filter (fun v => Vote.option_id v =? Option.id o)
                                (v :: vs)))
         opts)
  = foldr Z.add 0
      (map (fun o => if Vote.option_id v =? Option.id o then 1 else 0) opts)
    + foldr Z.add 0
        (map (fun o =>
                Py.len (List.filter (fun v => Vote.option_id v =? Option.id o)
                                    vs))
             opts).
Proof.
  induction opts as [| o opts IH]; [done |].
  cbn [map foldr]. rewrite IH. cbn [List.filter].
  destruct (Vote.option_id v =? Option.id o); unfold Py.len; cbn [length]; lia.
Qed.

(** With distinct option ids, the counts of the rows add up to the number
    of votes of the poll. *)
Lemma row_total_vote_count (poll_id : Z) :
  NoDup (map Option.id (options db)) ->
  Spec.row_total (AnalyticsService.vote_distribution_rows db poll_id)
  = AnalyticsService.poll_vote_count db poll_id.
Proof.
  intros Hnd.
  unfold Spec.row_total, AnalyticsService.vote_distribution_rows,
    AnalyticsService.poll_vote_count, AnalyticsService.votes_of_poll,
    AnalyticsService.option_of_vote.
  rewrite <- list_fmap_compose. unfold compose. cbn [snd].
  induction (votes db) as [| v vs IH].
  - cbn [List.filter]. unfold Py.len. cbn [length].
    induction (List.filter _ (options db)) as [| o os IHo]; [done |].
    cbn [fmap list_fmap foldr]. cbn [fmap] in IHo. rewrite IHo. lia.
  - change (fmap ?f ?l) with (map f l) in *.
    rewrite row_total_cons_vote, IH, (count_options_with_id _ _ _ Hnd).
    cbn [List.filter].
    destruct (List.find _ (options db)) as [o |]; [| lia].
    destruct (Option.poll_id o =? poll_id); unfold Py.len; cbn [length]; lia.
Qed.


End GroupedRows.



(** Two options named "Yes", with two votes and one vote: the grouped query
    has the rows ("Yes", 2) and ("Yes", 1), the distribution keeps the
    second one, and [total_votes] is 1 although the poll has three votes. *)
Example twins_distribution :
  AnalyticsService.vote_distribution_rows Samples.twins 1
  = [("Yes"%string, 2); ("Yes"%string, 1)]
  /\ AnalyticsService._get_vote_distribution Samples.twins 1
     = {[ "Yes"%string := 1 ]}
  /\ AnalyticsService.sum_values
       (AnalyticsService._get_vote_distribution Samples.twins 1) = 1
  /\ AnalyticsService.poll_vote_count Samples.twins 1 = 3.
Proof. repeat split; by vm_compute. Qed.

(** ** The most popular poll *)

Section MostPopular.

Variable db : Session.

(** Polls without votes never move the running maximum off its start. *)
Lemma most_popular_fold_no_votes (polls : list Poll.t) :
  Forall (fun p => AnalyticsService.poll_vote_count db (Poll.id p) = 0)
         polls ->
  fold_left (AnalyticsService.most_popular_step db) polls (0, None)
  = (0, None).
Proof.
  induction 1 as [| p polls Hp Hrest IH]; [done |].
  cbn [fold_left]. unfold AnalyticsService.most_popular_step at 2.
  cbn [fst]. by rewrite Hp.
Qed.

Lemma most_popular_none_no_votes (polls : list Poll.t) :
  Forall (fun p => AnalyticsService.poll_vote_count db (Poll.id p) = 0)
         polls ->
  AnalyticsService._get_most_popular_poll db polls = None.
Proof.
  intros Hall. unfold AnalyticsService._get_most_popular_poll.
  destruct polls as [| p polls]; [done |].
  by rewrite most_popular_fold_no_votes.
Qed.

End MostPopular.

(** C9, on the part of the code that runs: applied to the polls a user
    owns, at least one, none of which has a vote, [_get_most_popular_poll]
    keeps its running maximum at 0 and returns [None].  The overview that
    would report this value is not embedded: in the source the body of
    [get_user_analytics_overview] leaves its [try] block before any
    [except] clause (the statements from the total of views to the count
    of this month's polls are indented one level less), so the function
    is not well-formed and returns nothing. *)
Theorem most_popular_poll_none_without_votes (db : Session) (user_id : Z) :
  (exists p, In p (polls db) /\ Poll.owner_id p = user_id) ->
  (forall p, In p (polls db) -> Poll.owner_id p = user_id ->
             AnalyticsService.poll_vote_count db (Poll.id p) = 0) ->
  AnalyticsService._get_most_popular_poll
    db (List.filter (fun p => Poll.owner_id p =? user_id) (polls db))
  = None
  /\ 0 < Py.len (List.filter (fun p => Poll.owner_id p =? user_id) (polls db)).
Proof.
  intros (p & Hp & Howner) Hquiet.
  set (user_polls := List.filter (fun p => Poll.owner_id p =? user_id)
                                 (polls db)).
  assert (Hin : In p user_polls).
  { apply filter_In. split; [done |]. by apply Z.eqb_eq. }
  split.
  - apply most_popular_none_no_votes, Forall_forall.
    intros q Hq. apply list_elem_of_In, filter_In in Hq as [Hq Hown].
    apply Hquiet; [done | by apply Z.eqb_eq].
  - unfold Py.len. destruct user_polls; [destruct Hin | simpl; lia].
Qed.

Lemma most_popular_poll_none_without_votes_witness :
  AnalyticsService._get_most_popular_poll
    Samples.quiet
    (List.filter (fun p => Poll.owner_id p =? 1) (polls Samples.quiet))
  = None
  /\ 0 < Py.len (List.filter (fun p => Poll.owner_id p =? 1)
                             (polls Samples.quiet)).
Proof.
  apply (most_popular_poll_none_without_votes Samples.quiet 1).
  - exists (Samples.mk_poll 1 5). split; [left; reflexivity | reflexivity].
  - intros p Hp _. reflexivity.
Defined.

(** * Further properties of the code *)

(** ** Scoring helpers *)

(** X1: [calculate_engagement_score] lies in [0, 100] for all inputs, be
    they negative or not. *)
Theorem calculate_engagement_score_range
    (votes views unique_voters : Z) (poll_age_hours : Q) (option_count : Z) :
  (0 <= AnalyticsCalculator.calculate_engagement_score
          votes views unique_voters poll_age_hours option_count)%Q
  /\ (AnalyticsCalculator.calculate_engagement_score
        votes views unique_voters poll_age_hours option_count <= 100)%Q.
Proof.
  unfold AnalyticsCalculator.calculate_engagement_score.
  destruct (views =? 0); [split; discriminate |].
  split.
  - apply py_min_glb; [discriminate | apply py_max_bounds].
  - apply py_min_bounds.
Qed.

(** X2: with bounds in order, [clamp] lands between them and leaves a
    value already between them untouched; with the bounds crossed
    ([max_val < min_val]) it answers [min_val] whatever the value. *)
Theorem clamp_bounds (value min_val max_val : Q) :
  ((min_val <= max_val)%Q ->
   ((min_val <= clamp value min_val max_val)%Q
    /\ (clamp value min_val max_val <= max_val)%Q)
   /\ ((min_val < value)%Q -> (value < max_val)%Q ->
       clamp value min_val max_val = value)
   /\ ((min_val <= value)%Q -> (value <= max_val)%Q ->
       (clamp value min_val max_val == value)%Q))
  /\ ((max_val < min_val)%Q -> clamp value min_val max_val = min_val).
Proof.
  unfold clamp, Py.max, Py.min.
  repeat split; intros; repeat case_Qlt; try reflexivity; qlra.
Qed.

(** ** Trend direction *)

Lemma div_by_window (x : Q) (w : Z) :
  w <> 0 -> Py.div x (inject_Z w) = Ok (x / inject_Z w)%Q.
Proof.
  intros Hw. unfold Py.div.
  destruct (Qeq_bool (inject_Z w) 0) eqn:E; [| done].
  apply Qeq_bool_iff in E. unfold Qeq in E. simpl in E. lia.
Qed.

Lemma div_by_zero (x : Q) : Py.div x (inject_Z 0) = Raise ZeroDivisionError.
Proof. reflexivity. Qed.

(** A window size of 0 makes [calculate_trend_direction] raise
    [ZeroDivisionError] on every series, the empty one included. *)
Lemma trend_direction_div_zero (values : list Q) :
  AnalyticsCalculator.calculate_trend_direction values 0
  = Raise ZeroDivisionError.
Proof.
  unfold AnalyticsCalculator.calculate_trend_direction.
  assert (E : (Py.len values <? 0 * 2) = false)
    by (apply Z.ltb_ge; unfold Py.len; lia).
  rewrite E. by rewrite div_by_zero.
Qed.

(** X3: with a window size other than 0, [calculate_trend_direction]
    returns one of the three labels and never raises. *)
Theorem calculate_trend_direction_labels (values : list Q) (w : Z) :
  w <> 0 ->
  exists label : string,
    AnalyticsCalculator.calculate_trend_direction values w = Ok label
    /\ (label = "increasing" \/ label = "decreasing" \/ label = "stable")%string.
Proof.
  intros Hw. unfold AnalyticsCalculator.calculate_trend_direction.
  destruct (Py.len values <? w * 2); [by eexists; eauto |].
  rewrite !div_by_window by done. unfold mbind, result_bind, Py.bind.
  repeat case_Qlt; eexists; eauto.
Qed.

Lemma calculate_trend_direction_labels_witness :
  exists label : string,
    AnalyticsCalculator.calculate_trend_direction [4; 2; 1; 1]%Q (-1)
    = Ok label
    /\ (label = "increasing" \/ label = "decreasing" \/ label = "stable")%string.
Proof.
  apply (calculate_trend_direction_labels [4; 2; 1; 1]%Q (-1)). discriminate.
Defined.

Lemma Qlt_bool_irrefl_eq (a b : Q) : (a == b)%Q -> Py.Qlt_bool a b = false.
Proof. intros H. apply Qlt_bool_false_iff. rewrite H. apply Qle_refl. Qed.

(** X4: on a series whose points are all the same number,
    [calculate_trend_direction] answers 'stable' for every positive
    window, whether or not the series is long enough. *)
Theorem calculate_trend_direction_constant
    (c : Q) (values : list Q) (w : Z) :
  0 < w ->
  Forall (fun x => c = x) values ->
  AnalyticsCalculator.calculate_trend_direction values w = Ok "stable".
Proof.
  intros Hw Hall. unfold AnalyticsCalculator.calculate_trend_direction.
  destruct (Z.ltb_spec (Py.len values) (w * 2)) as [Hshort | Hlong]; [done |].
  rewrite !div_by_window by lia. unfold mbind, result_bind, Py.bind.
  unfold Py.len in Hlong.
  rewrite slice_first, slice_last by (unfold Py.len; lia).
  assert (Hrep : values = replicate (length values) c)
    by (symmetry; by apply replicate_as_Forall).
  rewrite Hrep, take_replicate, drop_replicate, length_replicate.
  replace (Z.to_nat w `min` length values)%nat with (Z.to_nat w) by lia.
  replace (length values - (length values - Z.to_nat w))%nat
    with (Z.to_nat w) by lia.
  set (m := (Py.sum (replicate (Z.to_nat w) c) / inject_Z w)%Q).
  destruct (Py.Qlt_bool 0 m) eqn:Em.
  - apply Qlt_bool_iff in Em.
    assert (Hz : ((m - m) / m == 0)%Q) by (field; qlra).
    assert (E1 : Py.Qlt_bool (1 # 10) ((m - m) / m) = false)
      by (apply Qlt_bool_false_iff; rewrite Hz; discriminate).
    assert (E2 : Py.Qlt_bool ((m - m) / m) (- (1 # 10)) = false)
      by (apply Qlt_bool_false_iff; rewrite Hz; discriminate).
    by rewrite E1, E2.
  - reflexivity.
Qed.

Lemma calculate_trend_direction_constant_witness :
  AnalyticsCalculator.calculate_trend_direction [3; 3; 3; 3; 3]%Q 2
  = Ok "stable".
Proof.
  apply (calculate_trend_direction_constant 3 [3; 3; 3; 3; 3]%Q 2).
  - lia.
  - repeat (apply Forall_cons; split; [reflexivity |]). by apply Forall_nil.
Defined.

(** ** Percentile rank *)

Lemma filter_below_equal_length (v : Q) (l : list Q) :
  (length (List.filter (fun x => Py.Qlt_bool x v) l)
   + length (List.filter (fun x => Qeq_bool x v) l) <= length l)%nat.
Proof.
  induction l as [| x l IH]; simpl; [lia |].
  destruct (Py.Qlt_bool x v) eqn:E1; destruct (Qeq_bool x v) eqn:E2;
    simpl; try lia.
  exfalso. apply Qlt_bool_iff in E1. apply Qeq_bool_iff in E2.
  rewrite E2 in E1. by apply Qlt_irrefl in E1.
Qed.

(** X5: the percentile rank is always between 0 and 100. *)
Theorem calculate_percentile_rank_range (value : Q) (dataset : list Q) :
  (0 <= AnalyticsCalculator.calculate_percentile_rank value dataset)%Q
  /\ (AnalyticsCalculator.calculate_percentile_rank value dataset <= 100)%Q.
Proof.
  unfold AnalyticsCalculator.calculate_percentile_rank.
  destruct dataset as [| x rest]; [split; discriminate |].
  set (data := Py.sorted (x :: rest)).
  pose proof (filter_below_equal_length value data) as Hsum.
  set (b := length (List.filter (fun x => Py.Qlt_bool x value) data)) in *.
  set (e := length (List.filter (fun x => Qeq_bool x value) data)) in *.
  assert (Hn : (0 < length data)%nat)
    by (unfold data; rewrite sorted_length; simpl; lia).
  unfold Py.len. fold b e.
  set (n := length data) in *.
  assert (Hb : (0 <= inject_Z (Z.of_nat b))%Q)
    by (change 0%Q with (inject_Z 0); rewrite <- Zle_Qle; lia).
  assert (He : (0 <= inject_Z (Z.of_nat e))%Q)
    by (change 0%Q with (inject_Z 0); rewrite <- Zle_Qle; lia).
  assert (Hnq : (0 < inject_Z (Z.of_nat n))%Q)
    by (change 0%Q with (inject_Z 0); rewrite <- Zlt_Qlt; lia).
  assert (Hle : (inject_Z (Z.of_nat b) + inject_Z (Z.of_nat e)
                 <= inject_Z (Z.of_nat n))%Q)
    by (rewrite <- inject_Z_plus, <- Zle_Qle; lia).
  assert (Hhalf : (0 <= inject_Z (Z.of_nat e) / 2)%Q
                  /\ (inject_Z (Z.of_nat e) / 2 <= inject_Z (Z.of_nat e))%Q).
  { split.
    - apply Qle_shift_div_l; [reflexivity | qlra].
    - apply Qle_shift_div_r; [reflexivity | qlra]. }
  destruct Hhalf as [Hh0 Hh1].
  set (half := (inject_Z (Z.of_nat e) / 2)%Q) in *.
  apply round_percent_bounds.
  - apply Qmult_le_0_compat; [| discriminate].
    apply Qle_shift_div_l; [done |]. qlra.
  - assert (Hr : ((inject_Z (Z.of_nat b) + half)
                  / inject_Z (Z.of_nat n) <= 1)%Q).
    { apply Qle_shift_div_r; [done |]. qlra. }
    qlra.
Qed.

Lemma filter_all_true {A} (f : A -> bool) (l : list A) :
  Forall (fun x => f x = true) l -> List.filter f l = l.
Proof.
  induction 1 as [| x l Hx Hl IH]; simpl; [done |]. by rewrite Hx, IH.
Qed.

Lemma filter_all_false {A} (f : A -> bool) (l : list A) :
  Forall (fun x => f x = false) l -> List.filter f l = [].
Proof.
  induction 1 as [| x l Hx Hl IH]; simpl; [done |]. by rewrite Hx, IH.
Qed.

(** X6: a value above every element of a non-empty dataset has rank 100,
    and a value below every element has rank 0. *)
Theorem calculate_percentile_rank_extremes (value : Q) (dataset : list Q) :
  dataset <> [] ->
  (Forall (fun x => (x < value)%Q) dataset ->
   (AnalyticsCalculator.calculate_percentile_rank value dataset == 100)%Q)
  /\ (Forall (fun x => (value < x)%Q) dataset ->
      (AnalyticsCalculator.calculate_percentile_rank value dataset == 0)%Q).
Proof.
  intros Hne. unfold AnalyticsCalculator.calculate_percentile_rank.
  destruct dataset as [| x rest]; [done |].
  set (data := Py.sorted (x :: rest)).
  assert (Hn : (0 < inject_Z (Py.len data))%Q).
  { unfold data, Py.len. rewrite sorted_length.
    change 0%Q with (inject_Z 0). rewrite <- Zlt_Qlt. simpl length. lia. }
  split; intros Hall; apply (sorted_Forall _ _) in Hall; fold data in Hall.
  - rewrite (filter_all_true (fun x => Py.Qlt_bool x value) data).
    2: { eapply Forall_impl; [exact Hall |]. intros y Hy. by apply Qlt_bool_iff. }
    rewrite (filter_all_false (fun x => Qeq_bool x value) data).
    2: { eapply Forall_impl; [exact Hall |]. intros y Hy. simpl.
         apply not_true_iff_false. rewrite Qeq_bool_iff.
         by apply Qlt_not_eq. }
    rewrite (round_proper _ 100 2); [reflexivity |].
    change (inject_Z (Py.len [])) with 0%Q. field. qlra.
  - rewrite (filter_all_false (fun x => Py.Qlt_bool x value) data).
    2: { eapply Forall_impl; [exact Hall |]. intros y Hy. simpl.
         apply Qlt_bool_false_iff. by apply Qlt_le_weak. }
    rewrite (filter_all_false (fun x => Qeq_bool x value) data).
    2: { eapply Forall_impl; [exact Hall |]. intros y Hy. simpl.
         apply not_true_iff_false. rewrite Qeq_bool_iff.
         apply Qlt_not_eq in Hy. intros E. apply Hy. by symmetry. }
    rewrite (round_proper _ 0 2); [reflexivity |].
    change (inject_Z (Py.len [])) with 0%Q. field. qlra.
Qed.

Lemma calculate_percentile_rank_extremes_witness :
  (Forall (fun x => (x < 9)%Q) [1; 5 # 2; 7]%Q ->
   (AnalyticsCalculator.calculate_percentile_rank 9 [1; 5 # 2; 7] == 100)%Q)
  /\ (Forall (fun x => (9 < x)%Q) [1; 5 # 2; 7]%Q ->
      (AnalyticsCalculator.calculate_percentile_rank 9 [1; 5 # 2; 7] == 0)%Q).
Proof.
  apply (calculate_percentile_rank_extremes 9 [1; 5 # 2; 7]%Q). discriminate.
Defined.

Lemma filter_length_Permutation {A} (f : A -> bool) (l l' : list A) :
  Permutation l l' ->
  length (List.filter f l) = length (List.filter f l').
Proof.
  induction 1 as [| x l l' _ IH | x y l | l l' l'' _ IH1 _ IH2]; simpl.
  - done.
  - destruct (f x); simpl; lia.
  - destruct (f x), (f y); simpl; lia.
  - lia.
Qed.

Lemma insert_sorted_Permutation (x : Q) (l : list Q) :
  Permutation (Py.insert_sorted x l) (x :: l).
Proof.
  induction l as [| y l IH]; simpl; [done |].
  destruct (Py.Qlt_bool y x); [| done].
  rewrite IH. apply perm_swap.
Qed.

Lemma sorted_Permutation (l : list Q) : Permutation (Py.sorted l) l.
Proof.
  unfold Py.sorted. induction l as [| x l IH]; simpl; [done |].
  rewrite insert_sorted_Permutation. by constructor.
Qed.

(** X7: the percentile rank does not depend on the order of the
    dataset: any rearrangement of it gives the same rank. *)
Theorem calculate_percentile_rank_permutation
    (value : Q) (dataset dataset' : list Q) :
  Permutation dataset dataset' ->
  AnalyticsCalculator.calculate_percentile_rank value dataset
  = AnalyticsCalculator.calculate_percentile_rank value dataset'.
Proof.
  intros Hperm. unfold AnalyticsCalculator.calculate_percentile_rank.
  assert (Hs : Permutation (Py.sorted dataset) (Py.sorted dataset'))
    by (by rewrite !sorted_Permutation).
  destruct dataset as [| x l]; destruct dataset' as [| x' l'].
  - done.
  - by apply Permutation_nil_cons in Hperm.
  - symmetry in Hperm. by apply Permutation_nil_cons in Hperm.
  - unfold Py.len.
    rewrite (filter_length_Permutation _ _ _ Hs).
    rewrite (filter_length_Permutation (fun x => Qeq_bool x value) _ _ Hs).
    by rewrite (Permutation_length Hs).
Qed.

Lemma calculate_percentile_rank_permutation_witness :
  AnalyticsCalculator.calculate_percentile_rank 2 [1; 2; 3]%Q
  = AnalyticsCalculator.calculate_percentile_rank 2 [2; 1; 3]%Q.
Proof.
  apply (calculate_percentile_rank_permutation 2 [1; 2; 3]%Q [2; 1; 3]%Q).
  apply perm_swap.
Defined.

(** ** Moving average *)

Lemma mapM_ok {A B} (f : A -> result B) (g : A -> B) (l : list A) :
  (forall x, In x l -> f x = Ok (g x)) -> Py.mapM f l = Ok (map g l).
Proof.
  induction l as [| x l IH]; intros Hf; [done |].
  cbn [Py.mapM map]. rewrite (Hf x) by (by left).
  rewrite IH by (intros y Hy; apply Hf; by right). reflexivity.
Qed.

Lemma slice_window {A} (l : list A) (i w : Z) :
  0 <= i -> 0 <= w -> i + w <= Py.len l ->
  Py.slice l (Some i) (Some (i + w))
  = take (Z.to_nat w) (drop (Z.to_nat i) l).
Proof.
  intros Hi Hw Hlen. unfold Py.slice, Py.slice_index.
  assert (E1 : (i <? 0) = false) by (apply Z.ltb_ge; lia).
  assert (E2 : (i + w <? 0) = false) by (apply Z.ltb_ge; lia).
  rewrite E1, E2, !Z.min_l by lia.
  by replace (i + w - i) with w by lia.
Qed.

Lemma range_In (n i : Z) : In i (Py.range n) <-> 0 <= i < n.
Proof.
  unfold Py.range. rewrite in_map_iff. split.
  - intros (k & <- & Hk). apply in_seq in Hk. lia.
  - intros Hi. exists (Z.to_nat i). split; [lia |]. apply in_seq. lia.
Qed.

Lemma range_lookup (n : Z) (i : nat) :
  Z.of_nat i < n -> Py.range n !! i = Some (Z.of_nat i).
Proof.
  intros Hi. unfold Py.range.
  change (map Z.of_nat ?l) with (Z.of_nat <$> l).
  rewrite list_lookup_fmap, lookup_seq_lt by lia. reflexivity.
Qed.

Lemma range_length (n : Z) : length (Py.range n) = Z.to_nat n.
Proof. unfold Py.range. by rewrite length_map, length_seq. Qed.

(** With a window that fits, the loop of [calculate_moving_average] runs
    to its end: one mean per window position. *)
Lemma calculate_moving_average_run (values : list Q) (w : Z) :
  0 < w -> w <= Py.len values ->
  DataAggregator.calculate_moving_average values w
  = Ok (map (fun i : Z =>
               (Py.sum (take (Z.to_nat w) (drop (Z.to_nat i) values))
                / inject_Z w)%Q)
            (Py.range (Py.len values - w + 1))).
Proof.
  intros Hw Hfit. unfold DataAggregator.calculate_moving_average.
  assert (E : (Py.len values <? w) = false) by (apply Z.ltb_ge; lia).
  rewrite E. apply mapM_ok. intros i Hi. apply range_In in Hi.
  rewrite slice_window by lia. apply div_by_window. lia.
Qed.

(** X8: when the window fits ([0 < w <= len(values)]),
    [calculate_moving_average] returns [len(values) - w + 1] means, the
    one at position [i] being the mean of the [w] values from position
    [i] on. *)
Theorem calculate_moving_average_windows (values : list Q) (w : Z) :
  0 < w -> w <= Py.len values ->
  exists averages : list Q,
    DataAggregator.calculate_moving_average values w = Ok averages
    /\ Py.len averages = Py.len values - w + 1
    /\ forall i : nat,
         Z.of_nat i <= Py.len values - w ->
         averages !! i
         = Some (Py.sum (take (Z.to_nat w) (drop i values)) / inject_Z w)%Q.
Proof.
  intros Hw Hfit. rewrite calculate_moving_average_run by done.
  eexists. split; [reflexivity |]. split.
  - unfold Py.len in *. rewrite length_map, range_length. lia.
  - intros i Hi.
    change (map ?f ?l) with (f <$> l).
    rewrite list_lookup_fmap, range_lookup by lia. cbn [fmap option_fmap option_map].
    by rewrite Nat2Z.id.
Qed.

Lemma calculate_moving_average_windows_witness :
  exists averages : list Q,
    DataAggregator.calculate_moving_average [1; 2; 3; 4]%Q 2 = Ok averages
    /\ Py.len averages = Py.len [1; 2; 3; 4]%Q - 2 + 1
    /\ forall i : nat,
         Z.of_nat i <= Py.len [1; 2; 3; 4]%Q - 2 ->
         averages !! i
         = Some (Py.sum (take (Z.to_nat 2) (drop i [1; 2; 3; 4]%Q))
                 / inject_Z 2)%Q.
Proof.
  apply (calculate_moving_average_windows [1; 2; 3; 4]%Q 2);
    [lia | discriminate].
Defined.

(** A window size of 0 makes [calculate_moving_average] raise
    [ZeroDivisionError] on every series, the empty one included. *)
Lemma moving_average_div_zero (values : list Q) :
  DataAggregator.calculate_moving_average values 0
  = Raise ZeroDivisionError.
Proof.
  unfold DataAggregator.calculate_moving_average.
  assert (E : (Py.len values <? 0) = false)
    by (apply Z.ltb_ge; unfold Py.len; lia).
  rewrite E. unfold Py.range, Py.len.
  replace (Z.to_nat (Z.of_nat (length values) - 0 + 1))
    with (S (length values)) by lia.
  cbn [seq map Py.mapM]. by rewrite div_by_zero.
Qed.

Lemma sum_from_acc (l : list Q) (acc : Q) :
  (fold_left Qplus l acc == acc + Py.sum l)%Q.
Proof.
  unfold Py.sum. revert acc. induction l as [| x l IH]; intros acc; simpl.
  - ring.
  - rewrite IH, (IH (0 + x)%Q). ring.
Qed.

Lemma sum_cons (x : Q) (l : list Q) : (Py.sum (x :: l) == x + Py.sum l)%Q.
Proof. unfold Py.sum at 1. simpl. rewrite sum_from_acc. ring. Qed.

(** X9: with a window of 1 the moving average gives back the series,
    value for value. *)
Theorem calculate_moving_average_window_one (values : list Q) :
  exists averages : list Q,
    DataAggregator.calculate_moving_average values 1 = Ok averages
    /\ Forall2 Qeq averages values.
Proof.
  destruct values as [| x rest] eqn:Ev.
  - exists []. split; [reflexivity | constructor].
  - rewrite <- Ev. rewrite calculate_moving_average_run;
      [| lia | rewrite Ev; unfold Py.len; simpl; lia].
    eexists. split; [reflexivity |].
    apply Forall2_same_length_lookup. split.
    + rewrite length_map, range_length. unfold Py.len. lia.
    + intros i a y Ha Hy.
      assert (Hi : (i < length values)%nat) by (by eapply lookup_lt_Some).
      change (map ?f ?l) with (f <$> l) in Ha.
      rewrite list_lookup_fmap, range_lookup in Ha by (unfold Py.len; lia).
      cbn [fmap option_fmap option_map] in Ha. injection Ha as <-.
      rewrite Nat2Z.id.
      assert (Hw : take (Z.to_nat 1) (drop i values) = [y]).
      { rewrite (drop_S _ _ _ Hy). reflexivity. }
      rewrite Hw, sum_cons. unfold Py.sum. simpl. field.
Qed.

(** ** Time buckets *)

Lemma bucket_delta_cases (bucket_size : string) (delta : Z) :
  TimeAnalyzer.bucket_delta bucket_size = Ok delta ->
  (bucket_size = "hour"%string /\ delta = TimeAnalyzer.hour_us)
  \/ (bucket_size = "day"%string /\ delta = Time.us_per_day)
  \/ (bucket_size = "week"%string /\ delta = 7 * Time.us_per_day).
Proof.
  unfold TimeAnalyzer.bucket_delta.
  destruct (String.eqb_spec bucket_size "hour"); [intros [= <-]; auto |].
  destruct (String.eqb_spec bucket_size "day"); [intros [= <-]; auto |].
  destruct (String.eqb_spec bucket_size "week"); [intros [= <-]; auto |].
  discriminate.
Qed.

(** The loop with enough fuel: [n] boundaries, the last one within
    [delta] of the end. *)
Lemma buckets_loop_run (delta end_date : Z) (n fuel : nat) (current : Z) :
  0 < delta ->
  (n <= fuel)%nat ->
  ((0 < n)%nat -> current + (Z.of_nat n - 1) * delta <= end_date) ->
  end_date < current + Z.of_nat n * delta ->
  TimeAnalyzer.buckets_loop fuel current end_date delta
  = map (fun k : nat => current + Z.of_nat k * delta) (seq 0 n).
Proof.
  intros Hdelta. revert fuel current.
  induction n as [| n IH]; intros fuel current Hfuel Hlast Hend.
  - destruct fuel as [| fuel]; [done |]. cbn [TimeAnalyzer.buckets_loop].
    assert (E : (current <=? end_date) = false) by (apply Z.leb_gt; lia).
    by rewrite E.
  - destruct fuel as [| fuel]; [lia |]. cbn [TimeAnalyzer.buckets_loop].
    assert (E : (current <=? end_date) = true) by (apply Z.leb_le; nia).
    rewrite E. rewrite (IH fuel (current + delta)); [| lia | nia | nia].
    cbn [seq map]. f_equal; [lia |].
    rewrite <- seq_shift, map_map. apply map_ext. intros k. lia.
Qed.

(** X13: for the sizes 'hour', 'day' and 'week', [get_time_buckets]
    returns the boundaries [start, start + delta, ...] up to the last one
    not after [end_date]: there are [(end - start) div delta + 1] of
    them when [start <= end], and none when [start] is after [end]. *)
Theorem get_time_buckets_series
    (start_date end_date : datetime) (bucket_size : string) (delta : Z) :
  (bucket_size = "hour"%string /\ delta = TimeAnalyzer.hour_us)
  \/ (bucket_size = "day"%string /\ delta = Time.us_per_day)
  \/ (bucket_size = "week"%string /\ delta = 7 * Time.us_per_day) ->
  exists buckets : list datetime,
    TimeAnalyzer.get_time_buckets start_date end_date bucket_size = Ok buckets
    /\ (end_date < start_date -> buckets = [])
    /\ (start_date <= end_date ->
        Py.len buckets = (end_date - start_date) / delta + 1)
    /\ (forall (i : nat) (b : datetime),
          buckets !! i = Some b ->
          b = start_date + Z.of_nat i * delta
          /\ start_date <= b <= end_date)
    /\ (forall b, last buckets = Some b -> end_date < b + delta).
Proof.
  intros Hsize.
  assert (Hdelta : TimeAnalyzer.bucket_delta bucket_size = Ok delta
                   /\ 0 < delta).
  { destruct Hsize as [[-> ->] | [[-> ->] | [-> ->]]]; split; reflexivity. }
  destruct Hdelta as [Hd Hpos].
  unfold TimeAnalyzer.get_time_buckets. rewrite Hd.
  unfold mbind, result_bind, Py.bind.
  set (n := Z.to_nat ((end_date - start_date) / delta + 1)).
  pose proof (Z.div_mod (end_date - start_date) delta ltac:(lia)) as Hdm.
  pose proof (Z.mod_pos_bound (end_date - start_date) delta Hpos) as Hmod.
  destruct (Z.lt_ge_cases end_date start_date) as [Hempty | Hle].
  - assert (Hn : n = 0%nat).
    { unfold n.
      assert ((end_date - start_date) / delta < 0)
        by (apply Z.div_lt_upper_bound; lia).
      lia. }
    rewrite Hn. exists []. repeat split; try done; lia.
  - assert (Hq : 0 <= (end_date - start_date) / delta)
      by (apply Z.div_pos; lia).
    rewrite (buckets_loop_run delta end_date n n start_date);
      [| done | lia | unfold n; nia | unfold n; nia].
    eexists. split; [reflexivity |]. split; [lia |]. split.
    { intros _. unfold Py.len. rewrite length_map, length_seq. unfold n. lia. }
    split.
    + intros i b Hb. change (map ?f ?l) with (f <$> l) in Hb.
      rewrite list_lookup_fmap in Hb.
      destruct (seq 0 n !! i) as [k |] eqn:Ek; [| done].
      apply lookup_seq in Ek as [-> Hi]. injection Hb as <-.
      cbn [Nat.add]. split; [done |]. unfold n in Hi. nia.
    + intros b Hb. change (map ?f ?l) with (f <$> l) in Hb.
      rewrite fmap_last in Hb.
      destruct (last (seq 0 n)) as [k |] eqn:Ek; [| done].
      injection Hb as <-.
      rewrite last_lookup, length_seq in Ek.
      apply lookup_seq in Ek as [-> Hi]. unfold n in *. nia.
Qed.

Lemma get_time_buckets_series_witness :
  exists buckets : list datetime,
    TimeAnalyzer.get_time_buckets 10 (2 * Time.us_per_day) "day" = Ok buckets
    /\ (2 * Time.us_per_day < 10 -> buckets = [])
    /\ (10 <= 2 * Time.us_per_day ->
        Py.len buckets = (2 * Time.us_per_day - 10) / Time.us_per_day + 1)
    /\ (forall (i : nat) (b : datetime),
          buckets !! i = Some b ->
          b = 10 + Z.of_nat i * Time.us_per_day
          /\ 10 <= b <= 2 * Time.us_per_day)
    /\ (forall b, last buckets = Some b ->
                  2 * Time.us_per_day < b + Time.us_per_day).
Proof.
  apply (get_time_buckets_series 10 (2 * Time.us_per_day) "day"
           Time.us_per_day).
  right. left. split; reflexivity.
Defined.

(** X14: any other bucket size makes [get_time_buckets] raise
    [ValueError], whatever the dates, an empty range included. *)
Theorem get_time_buckets_invalid_size
    (start_date end_date : datetime) (bucket_size : string) :
  bucket_size <> "hour"%string -> bucket_size <> "day"%string ->
  bucket_size <> "week"%string ->
  TimeAnalyzer.get_time_buckets start_date end_date bucket_size
  = Raise (ValueError (String.append "Invalid bucket size: " bucket_size)).
Proof.
  intros Hh Hd Hw.
  unfold TimeAnalyzer.get_time_buckets, TimeAnalyzer.bucket_delta.
  apply String.eqb_neq in Hh, Hd, Hw. by rewrite Hh, Hd, Hw.
Qed.

Lemma get_time_buckets_invalid_size_witness :
  TimeAnalyzer.get_time_buckets 5 0 "month"
  = Raise (ValueError (String.append "Invalid bucket size: " "month")).
Proof.
  apply (get_time_buckets_invalid_size 5 0 "month"); discriminate.
Defined.

(** ** Stable sorting *)

Section SortedBy.

Context {A : Type} (lt : A -> A -> bool) (key : A -> Z).
Hypothesis lt_key : forall a b, lt a b = (key a <? key b).

Lemma insert_by_Permutation (x : A) (l : list A) :
  Permutation (Py.insert_by lt x l) (x :: l).
Proof.
  induction l as [| y l IH]; simpl; [done |].
  destruct (lt y x); [| done]. rewrite IH. apply perm_swap.
Qed.

Lemma sorted_by_Permutation (l : list A) : Permutation (Py.sorted_by lt l) l.
Proof.
  unfold Py.sorted_by. induction l as [| x l IH]; simpl; [done |].
  rewrite insert_by_Permutation. by constructor.
Qed.

Lemma insert_by_sorted (x : A) (l : list A) :
  StronglySorted (fun a b => key a <= key b) l ->
  StronglySorted (fun a b => key a <= key b) (Py.insert_by lt x l).
Proof.
  induction 1 as [| y l Hl IH Hy]; simpl.
  - repeat constructor.
  - rewrite lt_key. destruct (Z.ltb_spec (key y) (key x)) as [Hlt | Hge].
    + constructor; [done |].
      rewrite insert_by_Permutation. constructor; [lia | done].
    + constructor; [by constructor |].
      constructor; [done |].
      eapply Forall_impl; [exact Hy |]. intros z Hz. simpl in Hz. lia.
Qed.

Lemma sorted_by_sorted (l : list A) :
  StronglySorted (fun a b => key a <= key b) (Py.sorted_by lt l).
Proof.
  unfold Py.sorted_by. induction l as [| x l IH]; simpl.
  - constructor.
  - by apply insert_by_sorted.
Qed.

End SortedBy.

(** A slice [l[:n]] is a prefix of [l], of [n] elements at most when [n]
    is not negative. *)
Lemma slice_prefix {A} (l : list A) (n : Z) :
  exists k : nat,
    Py.slice l None (Some n) = take k l /\ (0 <= n -> k = Z.to_nat n).
Proof.
  unfold Py.slice, Py.slice_index.
  destruct (Z.ltb_spec n 0) as [Hneg | Hpos].
  - eexists. split; [reflexivity | lia].
  - exists (Z.to_nat n). split; [| done].
    rewrite Z.sub_0_r. change (drop (Z.to_nat 0) l) with l.
    destruct (Z.le_ge_cases n (Py.len l)) as [Hle | Hge].
    + by rewrite Z.min_l.
    + rewrite Z.min_r by done. unfold Py.len in *.
      rewrite !take_ge; [done | lia | lia].
Qed.

(** ** Insertion-ordered dictionaries *)

Section DictList.

Context {V : Type}.
Implicit Types (d : list (string * V)) (k : string) (v : V).

Lemma dict_get_set d k v k' (default : V) :
  Py.dict_get (Py.dict_set d k v) k' default
  = if String.eqb k k' then v else Py.dict_get d k' default.
Proof.
  induction d as [| [k0 v0] d IH]; simpl.
  - done.
  - destruct (String.eqb_spec k0 k) as [-> | Hne]; simpl.
    + by destruct (String.eqb_spec k k').
    + rewrite IH.
      destruct (String.eqb_spec k0 k') as [-> | Hne']; [| done].
      destruct (String.eqb_spec k k'); [congruence | done].
Qed.

Lemma dict_set_keys d k v :
  (Py.dict_set d k v).*1 = if decide (k ∈ d.*1) then d.*1 else d.*1 ++ [k].
Proof.
  induction d as [| [k0 v0] d IH].
  - destruct (decide (k ∈ ([] : list (string * V)).*1)) as [Hin | _]; [| done].
    by apply elem_of_nil in Hin.
  - cbn [Py.dict_set]. destruct (String.eqb_spec k0 k) as [-> | Hne].
    + destruct (decide (k ∈ ((k, v0) :: d).*1)) as [_ | Hnin]; [done |].
      exfalso. apply Hnin. apply list_elem_of_here.
    + cbn [fmap list_fmap fst] in *. rewrite IH.
      destruct (decide (k ∈ d.*1)) as [Hin | Hnin];
        destruct (decide (k ∈ k0 :: d.*1)) as [Hin' | Hnin']; try done.
      * exfalso. apply Hnin'. by apply list_elem_of_further.
      * exfalso. apply elem_of_cons in Hin' as [-> | Hin']; [done | done].
Qed.

Lemma dict_set_NoDup d k v : NoDup d.*1 -> NoDup (Py.dict_set d k v).*1.
Proof.
  intros Hnd. rewrite dict_set_keys.
  destruct (decide (k ∈ d.*1)); [done |].
  apply NoDup_app. split; [done |]. split; [| apply NoDup_singleton].
  intros x Hx Hk. apply list_elem_of_singleton in Hk. by subst.
Qed.

Lemma dict_get_elem d k v (default : V) :
  NoDup d.*1 -> (k, v) ∈ d -> Py.dict_get d k default = v.
Proof.
  induction d as [| [k0 v0] d IH]; intros Hnd Hin.
  - by apply elem_of_nil in Hin.
  - cbn [fmap list_fmap fst] in Hnd. apply NoDup_cons in Hnd as [Hfresh Hnd].
    simpl. apply elem_of_cons in Hin as [Heq | Hin].
    + injection Heq as <- <-. by rewrite String.eqb_refl.
    + destruct (String.eqb_spec k0 k) as [-> | Hne]; [| by apply IH].
      exfalso. apply Hfresh.
      change k with (k, v).1. by apply list_elem_of_fmap_2.
Qed.

Lemma dict_get_missing d k (default : V) :
  k ∉ d.*1 -> Py.dict_get d k default = default.
Proof.
  induction d as [| [k0 v0] d IH]; intros Hnin; [done |].
  cbn [fmap list_fmap fst] in Hnin. apply not_elem_of_cons in Hnin as [Hne Hnin].
  simpl. destruct (String.eqb_spec k0 k); [congruence | by apply IH].
Qed.

End DictList.

(** ** Peak activity periods *)

Section Histogram.

Variable kf : datetime -> string.

Lemma count_key_snoc (k : string) (seen : list datetime) (t : datetime) :
  Py.len (List.filter (fun ts => String.eqb (kf ts) k) (seen ++ [t]))
  = Py.len (List.filter (fun ts => String.eqb (kf ts) k) seen)
    + (if String.eqb (kf t) k then 1 else 0).
Proof.
  unfold Py.len. rewrite List.filter_app, length_app. cbn [List.filter].
  destruct (String.eqb (kf t) k); cbn [length]; lia.
Qed.

(** The counting loop keeps one entry per key met so far, holding the
    number of timestamps with that key. *)
Lemma histogram_fold (ts seen : list datetime) (d : list (string * Z)) :
  NoDup d.*1 ->
  (forall k, Py.dict_get d k 0
             = Py.len (List.filter (fun t => String.eqb (kf t) k) seen)) ->
  (forall k, k ∈ d.*1 ->
             1 <= Py.len (List.filter (fun t => String.eqb (kf t) k) seen)) ->
  let d' :=
    fold_left
      (fun d t => Py.dict_set d (kf t) (Py.dict_get d (kf t) 0 + 1)) ts d in
  NoDup d'.*1
  /\ (forall k, Py.dict_get d' k 0
                = Py.len (List.filter (fun t => String.eqb (kf t) k)
                                      (seen ++ ts)))
  /\ (forall k, k ∈ d'.*1 ->
                1 <= Py.len (List.filter (fun t => String.eqb (kf t) k)
                                         (seen ++ ts))).
Proof.
  revert seen d. induction ts as [| t ts IH]; intros seen d Hnd Hget Hkeys.
  - cbn [fold_left]. rewrite app_nil_r. auto.
  - cbn [fold_left]. cbn zeta.
    replace (seen ++ t :: ts) with ((seen ++ [t]) ++ ts)
      by (by rewrite <- app_assoc).
    apply IH.
    + by apply dict_set_NoDup.
    + intros k. rewrite dict_get_set, count_key_snoc, !Hget.
      destruct (String.eqb_spec (kf t) k) as [-> | Hne]; lia.
    + intros k Hk. rewrite count_key_snoc.
      rewrite dict_set_keys in Hk.
      pose proof (len_nonneg
                    (List.filter (fun t => String.eqb (kf t) k) seen)) as H0.
      destruct (String.eqb_spec (kf t) k) as [Heq | Hne]; [lia |].
      destruct (decide (kf t ∈ d.*1)) as [Hin | Hnin].
      * specialize (Hkeys k Hk). lia.
      * apply elem_of_app in Hk as [Hk | Hk]; [specialize (Hkeys k Hk); lia |].
        apply list_elem_of_singleton in Hk. congruence.
Qed.

End Histogram.

Section Peaks.

Variable strftime : string -> datetime -> string.
Variable str_datetime : datetime -> string.

(** What the counting loop and the sort leave: a rearranged histogram. *)
Lemma peak_histogram (timestamps : list datetime) (bucket_size : string) :
  let sorted_periods :=
    Py.sorted_by (fun a b : string * Z => b.2 <? a.2)
      (fold_left
         (TimeAnalyzer.count_bucket strftime str_datetime bucket_size)
         timestamps []) in
  NoDup sorted_periods.*1
  /\ (forall k c,
        (k, c) ∈ sorted_periods ->
        1 <= c
        /\ c = Py.len
                 (List.filter
                    (fun t =>
                       String.eqb
                         (TimeAnalyzer.bucket_key
                            strftime str_datetime bucket_size t) k)
                    timestamps))
  /\ (forall t, t ∈ timestamps ->
        TimeAnalyzer.bucket_key strftime str_datetime bucket_size t
        ∈ sorted_periods.*1)
  /\ StronglySorted (fun a b : string * Z => b.2 <= a.2) sorted_periods.
Proof.
  intros sorted_periods.
  set (kf := TimeAnalyzer.bucket_key strftime str_datetime bucket_size).
  set (hist := fold_left
                 (TimeAnalyzer.count_bucket strftime str_datetime bucket_size)
                 timestamps []) in *.
  destruct (histogram_fold kf timestamps [] []) as (Hnd & Hget & Hkeys).
  { constructor. }
  { done. }
  { intros k Hk. by apply elem_of_nil in Hk. }
  cbn [app] in Hget, Hkeys.
  change (fold_left _ timestamps []) with hist in Hnd, Hget, Hkeys.
  assert (Hperm : Permutation sorted_periods hist)
    by apply sorted_by_Permutation.
  assert (Hsorted :
            StronglySorted (fun a b : string * Z => - a.2 <= - b.2)
                           sorted_periods).
  { apply (sorted_by_sorted _ (fun a : string * Z => - a.2)).
    intros a b. destruct (Z.ltb_spec b.2 a.2), (Z.ltb_spec (- a.2) (- b.2));
      try done; lia. }
  split; [by rewrite Hperm |]. split; [| split].
  - intros k c Hin. rewrite Hperm in Hin.
    assert (Hc : c = Py.len (List.filter (fun t => String.eqb (kf t) k)
                                         timestamps)).
    { rewrite <- Hget. symmetry. by apply dict_get_elem. }
    split; [| done]. rewrite Hc. apply Hkeys.
    change k with (k, c).1. by apply list_elem_of_fmap_2.
  - intros t Ht. rewrite Hperm.
    destruct (decide (kf t ∈ hist.*1)) as [Hin | Hnin]; [done |].
    exfalso. pose proof (Hget (kf t)) as Hgt.
    rewrite dict_get_missing in Hgt by done.
    apply list_elem_of_In in Ht. apply in_split in Ht as (l1 & l2 & ->).
    unfold Py.len in Hgt. rewrite List.filter_app in Hgt.
    cbn [List.filter] in Hgt. rewrite String.eqb_refl, length_app in Hgt.
    cbn [length] in Hgt. lia.
  - clear -Hsorted. induction Hsorted as [| a l Hl IH Ha]; constructor.
    + done.
    + eapply Forall_impl; [exact Ha |]. intros b Hb. simpl in Hb. lia.
Qed.

(** X15: every pair returned by [find_peak_activity_periods] is a bucket
    met in the timestamps with its exact number of timestamps (one at
    least); no bucket comes twice, and the counts come in descending
    order.  With [top_n >= 0] there are [top_n] pairs at most. *)
Theorem find_peak_activity_periods_counts
    (timestamps : list datetime) (bucket_size : string) (top_n : Z) :
  let periods :=
    TimeAnalyzer.find_peak_activity_periods
      strftime str_datetime timestamps bucket_size top_n in
  NoDup periods.*1
  /\ (forall k c,
        (k, c) ∈ periods ->
        1 <= c
        /\ c = Py.len
                 (List.filter
                    (fun t =>
                       String.eqb
                         (TimeAnalyzer.bucket_key
                            strftime str_datetime bucket_size t) k)
                    timestamps))
  /\ StronglySorted (fun a b : string * Z => b.2 <= a.2) periods
  /\ (0 <= top_n -> Py.len periods <= top_n).
Proof.
  intros periods. subst periods.
  unfold TimeAnalyzer.find_peak_activity_periods.
  destruct timestamps as [| t0 ts0] eqn:Ets.
  { split; [constructor |]. split; [| split; [constructor |]].
    - intros k c Hin. by apply elem_of_nil in Hin.
    - intros H0. unfold Py.len. simpl. lia. }
  rewrite <- Ets.
  destruct (peak_histogram timestamps bucket_size)
    as (Hnd & Hcnt & _ & Hsorted).
  cbn zeta in Hnd, Hcnt, Hsorted.
  set (s := Py.sorted_by _ _) in *.
  destruct (slice_prefix s top_n) as (k & -> & Hk).
  split; [| split; [| split]].
  - rewrite fmap_take. eapply sublist_NoDup; [exact Hnd | apply sublist_take].
  - intros key c Hin. apply Hcnt.
    eapply elem_of_sublist; [exact Hin | apply sublist_take].
  - rewrite <- (take_drop k s) in Hsorted.
    by apply StronglySorted_app_1_l in Hsorted.
  - intros Hn. unfold Py.len. rewrite length_take, (Hk Hn). lia.
Qed.

(** X16: with [top_n >= 0], the buckets left out by
    [find_peak_activity_periods] have no more timestamps than any bucket
    it returns. *)
Theorem find_peak_activity_periods_top
    (timestamps : list datetime) (bucket_size : string) (top_n : Z)
    (t : datetime) (k : string) (c : Z) :
  0 <= top_n ->
  t ∈ timestamps ->
  TimeAnalyzer.bucket_key strftime str_datetime bucket_size t
  ∉ (TimeAnalyzer.find_peak_activity_periods
       strftime str_datetime timestamps bucket_size top_n).*1 ->
  (k, c) ∈ TimeAnalyzer.find_peak_activity_periods
             strftime str_datetime timestamps bucket_size top_n ->
  Py.len
    (List.filter
       (fun t' =>
          String.eqb
            (TimeAnalyzer.bucket_key strftime str_datetime bucket_size t')
            (TimeAnalyzer.bucket_key strftime str_datetime bucket_size t))
       timestamps)
  <= c.
Proof.
  intros Hn Ht Hout Hin.
  unfold TimeAnalyzer.find_peak_activity_periods in *.
  destruct timestamps as [| t0 ts0] eqn:Ets;
    [by apply elem_of_nil in Hin |].
  rewrite <- Ets in *.
  destruct (peak_histogram timestamps bucket_size)
    as (Hnd & Hcnt & Hkeys & Hsorted).
  cbn zeta in Hnd, Hcnt, Hkeys, Hsorted.
  set (s := Py.sorted_by _ _) in *.
  destruct (slice_prefix s top_n) as (n & Hs & _).
  rewrite Hs in Hout, Hin.
  set (kt := TimeAnalyzer.bucket_key strftime str_datetime bucket_size t) in *.
  specialize (Hkeys t Ht). fold kt in Hkeys.
  apply list_elem_of_fmap in Hkeys as ([k' c'] & Hk' & Hin').
  cbn [fst] in Hk'. subst k'.
  rewrite <- (take_drop n s) in Hin', Hsorted.
  apply elem_of_app in Hin' as [Hin' | Hin'].
  - exfalso. apply Hout. change kt with (kt, c').1.
    by apply list_elem_of_fmap_2.
  - pose proof (StronglySorted_app_1_elem_of _ _ _ _ _ Hsorted Hin Hin')
      as Hle.
    cbn [snd] in Hle.
    destruct (Hcnt kt c') as [_ <-]; [| done].
    rewrite <- (take_drop n s). apply elem_of_app. by right.
Qed.

End Peaks.

Lemma find_peak_activity_periods_top_witness :
  Py.len
    (List.filter
       (fun t' =>
          String.eqb
            (TimeAnalyzer.bucket_key (fun _ _ => ""%string) (fun _ => ""%string)
                                     "hour" t')
            (TimeAnalyzer.bucket_key (fun _ _ => ""%string) (fun _ => ""%string)
                                     "hour" 0))
       [0; TimeAnalyzer.hour_us; TimeAnalyzer.hour_us + 5])
  <= 2.
Proof.
  apply (find_peak_activity_periods_top
           (fun _ _ => ""%string) (fun _ => ""%string)
           [0; TimeAnalyzer.hour_us; TimeAnalyzer.hour_us + 5] "hour" 1
           0 "01:00"%string 2).
  - lia.
  - apply list_elem_of_here.
  - apply (bool_decide_unpack _). vm_compute. exact I.
  - apply (bool_decide_unpack _). vm_compute. exact I.
Defined.

(** ** Activity velocity *)

(** In an ascending list the first element is the smallest and the last
    one the largest. *)
Lemma sorted_hd_last (s : list Z) :
  StronglySorted Z.le s -> s <> [] ->
  Forall (fun t => hd 0 s <= t <= List.last s 0) s
  /\ hd 0 s ∈ s /\ List.last s 0 ∈ s.
Proof.
  induction 1 as [| x l Hl IH Hx]; intros Hne; [done |].
  destruct l as [| y l'].
  - cbn. repeat split; [repeat constructor; lia | | ]; apply list_elem_of_here.
  - destruct (IH ltac:(discriminate)) as (Hall & Hhd & Hlast).
    change (List.last (x :: y :: l') 0) with (List.last (y :: l') 0).
    cbn [hd] in *. rewrite Forall_forall in Hx, Hall.
    pose proof (Hall _ Hhd) as Hy. pose proof (Hx _ Hhd) as Hxy.
    split; [| split].
    + constructor; [lia |]. apply Forall_forall. intros t Ht.
      pose proof (Hall _ Ht). pose proof (Hx _ Ht). lia.
    + apply list_elem_of_here.
    + by apply list_elem_of_further.
Qed.

Lemma sorted_timestamps_bounds (timestamps : list datetime) :
  timestamps <> [] ->
  let s := Py.sorted_by Z.ltb timestamps in
  Forall (fun t => hd 0 s <= t <= List.last s 0) timestamps
  /\ hd 0 s ∈ timestamps /\ List.last s 0 ∈ timestamps.
Proof.
  intros Hne s.
  assert (Hperm : Permutation s timestamps) by apply sorted_by_Permutation.
  assert (Hsorted : StronglySorted Z.le s).
  { apply (sorted_by_sorted Z.ltb (fun t => t)). done. }
  assert (Hs : s <> []).
  { intros E. rewrite E in Hperm. apply Permutation_nil in Hperm. done. }
  destruct (sorted_hd_last s Hsorted Hs) as (Hall & Hhd & Hlast).
  by rewrite <- Hperm.
Qed.

(** The loop with a non-zero window and enough fuel: one sample per
    hour, from [current] to the last hour not after the end. *)
Lemma velocity_loop_run
    (sorted_timestamps : list datetime) (w end_time : Z) (n fuel : nat)
    (current : Z) :
  w <> 0 ->
  (n <= fuel)%nat ->
  ((0 < n)%nat ->
   current + (Z.of_nat n - 1) * TimeAnalyzer.hour_us <= end_time) ->
  end_time < current + Z.of_nat n * TimeAnalyzer.hour_us ->
  TimeAnalyzer.velocity_loop fuel sorted_timestamps w current end_time
  = Ok (map
          (fun k : nat =>
             let start := current + Z.of_nat k * TimeAnalyzer.hour_us in
             (start,
              (inject_Z
                 (Py.len
                    (List.filter
                       (fun ts =>
                          (start <=? ts)
                          && (ts <? start + w * TimeAnalyzer.hour_us))
                       sorted_timestamps))
               / inject_Z w)%Q))
          (seq 0 n)).
Proof.
  intros Hw. revert fuel current.
  assert (Hh : 0 < TimeAnalyzer.hour_us) by reflexivity.
  induction n as [| n IH]; intros fuel current Hfuel Hlast Hend.
  - destruct fuel as [| fuel]; [done |]. cbn [TimeAnalyzer.velocity_loop].
    assert (E : (current <=? end_time) = false) by (apply Z.leb_gt; lia).
    by rewrite E.
  - destruct fuel as [| fuel]; [lia |]. cbn [TimeAnalyzer.velocity_loop].
    assert (E : (current <=? end_time) = true) by (apply Z.leb_le; nia).
    rewrite E, div_by_window by done.
    rewrite (IH fuel (current + TimeAnalyzer.hour_us)); [| lia | nia | nia].
    unfold mbind, result_bind, Py.bind. cbn [seq map]. cbn zeta.
    f_equal. f_equal.
    + by rewrite Z.add_0_r.
    + rewrite <- seq_shift, map_map. apply map_ext. intros k.
      replace (current + TimeAnalyzer.hour_us + Z.of_nat k * TimeAnalyzer.hour_us)
        with (current + Z.of_nat (S k) * TimeAnalyzer.hour_us) by lia.
      reflexivity.
Qed.

(** On a non-empty list of timestamps a window of 0 hours makes
    [calculate_activity_velocity] raise [ZeroDivisionError]; on the empty
    list it returns the empty list whatever the window. *)
Lemma activity_velocity_div_zero
    (timestamps : list datetime) (window_hours : Z) :
  (timestamps = [] ->
   TimeAnalyzer.calculate_activity_velocity timestamps window_hours = Ok [])
  /\ (timestamps <> [] ->
      TimeAnalyzer.calculate_activity_velocity timestamps 0
      = Raise ZeroDivisionError).
Proof.
  split; [by intros -> |]. intros Hne.
  unfold TimeAnalyzer.calculate_activity_velocity.
  destruct (sorted_timestamps_bounds timestamps Hne) as (Hall & Hhd & _).
  cbn zeta in Hall, Hhd.
  destruct timestamps as [| t0 ts0] eqn:Ets; [done |]. rewrite <- Ets in *.
  set (s := Py.sorted_by Z.ltb timestamps) in *.
  rewrite Forall_forall in Hall. pose proof (Hall _ Hhd) as Hord.
  assert (Hq : 0 <= (List.last s 0 - hd 0 s) / TimeAnalyzer.hour_us)
    by (apply Z.div_pos; [lia | reflexivity]).
  destruct (Z.to_nat ((List.last s 0 - hd 0 s) / TimeAnalyzer.hour_us + 1))
    as [| fuel] eqn:Ef; [lia |].
  cbn [TimeAnalyzer.velocity_loop].
  assert (E : (hd 0 s <=? List.last s 0) = true) by (apply Z.leb_le; lia).
  by rewrite E, div_by_zero.
Qed.

(** X17: a window of 0 is a division by zero in all three windowed
    helpers: [calculate_trend_direction] and [calculate_moving_average]
    raise [ZeroDivisionError] on every series, the empty one included;
    [calculate_activity_velocity] raises it on every non-empty list of
    timestamps, and returns the empty list on the empty one. *)
Theorem zero_window_raises (values : list Q) (timestamps : list datetime) :
  AnalyticsCalculator.calculate_trend_direction values 0
  = Raise ZeroDivisionError
  /\ DataAggregator.calculate_moving_average values 0
     = Raise ZeroDivisionError
  /\ TimeAnalyzer.calculate_activity_velocity [] 0 = Ok []
  /\ (timestamps <> [] ->
      TimeAnalyzer.calculate_activity_velocity timestamps 0
      = Raise ZeroDivisionError).
Proof.
  split; [apply trend_direction_div_zero |].
  split; [apply moving_average_div_zero |].
  split; [reflexivity |].
  apply (activity_velocity_div_zero timestamps 0).
Qed.

(** X18: with a non-zero window, [calculate_activity_velocity] returns one
    sample per hour from the earliest timestamp [lo] to the last hour
    not after the latest timestamp [hi]; the sample starting at [s] holds
    the number of timestamps in [s, s + window) divided by the window
    width. *)
Theorem calculate_activity_velocity_samples
    (timestamps : list datetime) (window_hours : Z) :
  timestamps <> [] ->
  window_hours <> 0 ->
  exists (lo hi : datetime) (samples : list (datetime * Q)),
    lo ∈ timestamps /\ hi ∈ timestamps
    /\ Forall (fun t => lo <= t <= hi) timestamps
    /\ TimeAnalyzer.calculate_activity_velocity timestamps window_hours
       = Ok samples
    /\ Py.len samples = (hi - lo) / TimeAnalyzer.hour_us + 1
    /\ forall (i : nat) (start : datetime) (velocity : Q),
         samples !! i = Some (start, velocity) ->
         start = lo + Z.of_nat i * TimeAnalyzer.hour_us
         /\ start <= hi
         /\ velocity
            = (inject_Z
                 (Py.len
                    (List.filter
                       (fun ts =>
                          (start <=? ts)
                          && (ts <? start
                                    + window_hours * TimeAnalyzer.hour_us))
                       timestamps))
               / inject_Z window_hours)%Q.
Proof.
  intros Hne Hw.
  destruct (sorted_timestamps_bounds timestamps Hne) as (Hall & Hhd & Hlast).
  cbn zeta in Hall, Hhd, Hlast.
  unfold TimeAnalyzer.calculate_activity_velocity.
  destruct timestamps as [| t0 ts0] eqn:Ets; [done |]. rewrite <- Ets in *.
  set (s := Py.sorted_by Z.ltb timestamps) in *.
  set (lo := hd 0 s) in *. set (hi := List.last s 0) in *.
  exists lo, hi.
  assert (Hord : lo <= hi).
  { rewrite Forall_forall in Hall. pose proof (Hall _ Hhd). lia. }
  assert (Hh : 0 < TimeAnalyzer.hour_us) by reflexivity.
  assert (Hq : 0 <= (hi - lo) / TimeAnalyzer.hour_us)
    by (apply Z.div_pos; lia).
  pose proof (Z.div_mod (hi - lo) TimeAnalyzer.hour_us ltac:(lia)) as Hdm.
  pose proof (Z.mod_pos_bound (hi - lo) TimeAnalyzer.hour_us Hh) as Hmod.
  set (n := Z.to_nat ((hi - lo) / TimeAnalyzer.hour_us + 1)).
  rewrite (velocity_loop_run s window_hours hi n n lo);
    [| done | lia | unfold n; nia | unfold n; nia].
  eexists. split; [done |]. split; [done |]. split; [done |].
  split; [reflexivity |]. split.
  - unfold Py.len. rewrite length_map, length_seq. unfold n. lia.
  - intros i start velocity Hi.
    change (map ?f ?l) with (f <$> l) in Hi.
    rewrite list_lookup_fmap in Hi.
    destruct (seq 0 n !! i) as [k |] eqn:Ek; [| done].
    apply lookup_seq in Ek as [-> Hlt]. cbn [Nat.add] in Hi.
    cbn [fmap option_fmap option_map] in Hi. cbn zeta in Hi.
    injection Hi as <- <-.
    split; [done |]. split; [unfold n in Hlt; nia |].
    unfold Py.len.
    by rewrite (filter_length_Permutation _ s timestamps)
      by apply sorted_by_Permutation.
Qed.

Lemma calculate_activity_velocity_samples_witness :
  exists (lo hi : datetime) (samples : list (datetime * Q)),
    lo ∈ [7200000000; 0; 3600000001] /\ hi ∈ [7200000000; 0; 3600000001]
    /\ Forall (fun t => lo <= t <= hi) [7200000000; 0; 3600000001]
    /\ TimeAnalyzer.calculate_activity_velocity
         [7200000000; 0; 3600000001] 2
       = Ok samples
    /\ Py.len samples = (hi - lo) / TimeAnalyzer.hour_us + 1
    /\ forall (i : nat) (start : datetime) (velocity : Q),
         samples !! i = Some (start, velocity) ->
         start = lo + Z.of_nat i * TimeAnalyzer.hour_us
         /\ start <= hi
         /\ velocity
            = (inject_Z
                 (Py.len
                    (List.filter
                       (fun ts =>
                          (start <=? ts)
                          && (ts <? start + 2 * TimeAnalyzer.hour_us))
                       [7200000000; 0; 3600000001]%Z))
               / inject_Z 2)%Q.
Proof.
  apply (calculate_activity_velocity_samples [7200000000; 0; 3600000001] 2);
    discriminate.
Defined.

(** ** Average engagement and the most popular poll *)

Section PollAverages.

Variable db : Session.

(** X19: [_calculate_average_engagement_rate] is the mean of
    [votes / views * 100] over the polls with a positive view count, the
    other polls being left out of both the sum and the count; it is 0.0
    when no poll has views, and never negative. *)
Theorem average_engagement_rate_mean (polls : list Poll.t) :
  let viewed :=
    List.filter (fun p => 0 <? AnalyticsService.poll_views p) polls in
  let rates :=
    map (fun p =>
           (inject_Z (AnalyticsService.poll_vote_count db (Poll.id p))
            / inject_Z (AnalyticsService.poll_views p) * 100)%Q)
        viewed in
  AnalyticsService._calculate_average_engagement_rate db polls
  = (if 0 <? Py.len viewed
     then (Py.sum rates / inject_Z (Py.len viewed))%Q else 0%Q)
  /\ (0 <= AnalyticsService._calculate_average_engagement_rate db polls)%Q.
Proof.
  intros viewed rates.
  assert (Hform :
            AnalyticsService._calculate_average_engagement_rate db polls
            = (if 0 <? Py.len viewed
               then (Py.sum rates / inject_Z (Py.len viewed))%Q else 0%Q)).
  { unfold AnalyticsService._calculate_average_engagement_rate.
    destruct polls as [| p0 ps0] eqn:Ep; [reflexivity |]. rewrite <- Ep in *.
    match goal with
    | |- context [fold_left ?F polls ?a] => set (step := F)
    end.
    assert (Hfold : forall (l : list Poll.t) (t : Q) (c : Z),
               fold_left step l (t, c)
               = (fold_left Qplus
                    (map (fun p =>
                            (inject_Z (AnalyticsService.poll_vote_count
                                         db (Poll.id p))
                             / inject_Z (AnalyticsService.poll_views p)
                             * 100)%Q)
                         (List.filter
                            (fun p => 0 <? AnalyticsService.poll_views p) l))
                    t,
                  c + Py.len (List.filter
                                (fun p => 0 <? AnalyticsService.poll_views p)
                                l))).
    { induction l as [| p l IH]; intros t c.
      - cbn. f_equal. unfold Py.len. simpl. lia.
      - cbn [fold_left List.filter]. unfold step at 2.
        destruct (0 <? AnalyticsService.poll_views p).
        + rewrite IH. cbn [map fold_left]. f_equal.
          unfold Py.len. cbn [length]. lia.
        + by rewrite IH. }
    rewrite Hfold, Z.add_0_l. subst viewed rates. rewrite Ep. reflexivity. }
  split; [exact Hform |]. rewrite Hform.
  destruct (Z.ltb_spec 0 (Py.len viewed)) as [Hpos | Hzero]; [| discriminate].
  apply Qle_shift_div_l.
  - change 0%Q with (inject_Z 0). by rewrite <- Zlt_Qlt.
  - rewrite Qmult_0_l. apply sum_from_nonneg; [| discriminate].
    unfold rates. apply Forall_map, Forall_forall. intros p Hp.
    apply list_elem_of_In, filter_In in Hp as [_ Hv].
    apply Z.ltb_lt in Hv.
    apply Qmult_le_0_compat; [| discriminate].
    apply Qle_shift_div_l.
    + change 0%Q with (inject_Z 0). by rewrite <- Zlt_Qlt.
    + rewrite Qmult_0_l. change 0%Q with (inject_Z 0).
      rewrite <- Zle_Qle. apply len_nonneg.
Qed.

(** The loop of [_get_most_popular_poll], seen after any number of polls:
    either no poll had a vote, or the current choice is the first poll
    with the largest number of votes. *)
Lemma most_popular_fold_first_max (polls : list Poll.t) :
  let acc :=
    fold_left (AnalyticsService.most_popular_step db) polls (0, None) in
  (acc = (0, None)
   /\ Forall (fun q => AnalyticsService.poll_vote_count db (Poll.id q) <= 0)
             polls)
  \/ (exists (pre post : list Poll.t) (p : Poll.t),
        polls = pre ++ p :: post
        /\ acc = (AnalyticsService.poll_vote_count db (Poll.id p), Some p)
        /\ 0 < AnalyticsService.poll_vote_count db (Poll.id p)
        /\ Forall (fun q => AnalyticsService.poll_vote_count db (Poll.id q)
                            < AnalyticsService.poll_vote_count db (Poll.id p))
                  pre
        /\ Forall (fun q => AnalyticsService.poll_vote_count db (Poll.id q)
                            <= AnalyticsService.poll_vote_count db (Poll.id p))
                  post).
Proof.
  induction polls as [| x polls IH] using rev_ind.
  - left. split; [done | constructor].
  - cbn zeta in *. rewrite fold_left_app. cbn [fold_left].
    destruct IH as [[-> Hall] | (pre & post & p & -> & -> & Hpos & Hpre & Hpost)].
    + unfold AnalyticsService.most_popular_step. cbn [fst].
      destruct (Z.ltb_spec 0 (AnalyticsService.poll_vote_count db (Poll.id x)))
        as [Hx | Hx].
      * right. exists polls, [], x. repeat split; try done.
        eapply Forall_impl; [exact Hall |]. intros q Hq. simpl in Hq. lia.
      * left. split; [done |]. apply Forall_app. split; [done |].
        by repeat constructor.
    + unfold AnalyticsService.most_popular_step. cbn [fst].
      destruct (Z.ltb_spec (AnalyticsService.poll_vote_count db (Poll.id p))
                           (AnalyticsService.poll_vote_count db (Poll.id x)))
        as [Hx | Hx].
      * right. exists (pre ++ p :: post), [], x.
        split; [done |]. split; [done |]. split; [lia |]. split; [| done].
        apply Forall_app. split.
        { eapply Forall_impl; [exact Hpre |]. intros q Hq. simpl in Hq. lia. }
        constructor; [done |].
        eapply Forall_impl; [exact Hpost |]. intros q Hq. simpl in Hq. lia.
      * right. exists pre, (post ++ [x]), p.
        split; [by rewrite <- app_assoc |]. split; [done |].
        split; [done |]. split; [done |].
        apply Forall_app. split; [done |]. by repeat constructor.
Qed.

(** X20: when [_get_most_popular_poll] names a poll, that poll has at
    least one vote, every poll listed before it has strictly fewer votes
    and every poll listed after it has no more (among equals the first
    one wins); and it names one as soon as some poll has a vote. *)
Theorem most_popular_poll_first_max (polls : list Poll.t) :
  (forall summary : PollSummary,
     AnalyticsService._get_most_popular_poll db polls = Some summary ->
     exists (pre post : list Poll.t) (p : Poll.t),
       polls = pre ++ p :: post
       /\ summary = {| ps_id := Poll.id p;
                       ps_question := Poll.question p;
                       ps_created_at := Poll.created_at p |}
       /\ 0 < AnalyticsService.poll_vote_count db (Poll.id p)
       /\ Forall (fun q => AnalyticsService.poll_vote_count db (Poll.id q)
                           < AnalyticsService.poll_vote_count db (Poll.id p))
                 pre
       /\ Forall (fun q => AnalyticsService.poll_vote_count db (Poll.id q)
                           <= AnalyticsService.poll_vote_count db (Poll.id p))
                 post)
  /\ ((exists q, q ∈ polls
                 /\ 0 < AnalyticsService.poll_vote_count db (Poll.id q)) ->
      is_Some (AnalyticsService._get_most_popular_poll db polls)).
Proof.
  pose proof (most_popular_fold_first_max polls) as Hfold. cbn zeta in Hfold.
  unfold AnalyticsService._get_most_popular_poll.
  destruct polls as [| p0 ps0] eqn:Ep.
  { split; [discriminate |]. intros (q & Hq & _). by apply elem_of_nil in Hq. }
  rewrite <- Ep in *.
  destruct Hfold as [[-> Hall] | (pre & post & p & Hsplit & -> & Hpos & Hpre & Hpost)].
  - cbn [snd]. split; [discriminate |].
    intros (q & Hq & Hvotes). rewrite Forall_forall in Hall.
    specialize (Hall q Hq). simpl in Hall. lia.
  - cbn [snd]. split; [| by eexists].
    intros summary [= <-]. by exists pre, post, p.
Qed.

End PollAverages.

(** ** Poll detail: voters, peak time, distinct texts, saturation *)

Lemma remove_dups_length_le {A} `{EqDecision A} (l : list A) :
  (length (remove_dups l) <= length l)%nat.
Proof.
  induction l as [| x l IH]; simpl; [lia |].
  destruct (decide_rel elem_of x l); simpl; lia.
Qed.

Lemma remove_dups_nil_iff {A} `{EqDecision A} (l : list A) :
  remove_dups l = [] <-> l = [].
Proof.
  split; [| by intros ->].
  intros Hr. destruct l as [| x l]; [done |].
  assert (Hx : x ∈ remove_dups (x :: l))
    by (apply elem_of_remove_dups, list_elem_of_here).
  rewrite Hr in Hx. by apply elem_of_nil in Hx.
Qed.

Lemma fold_max_spec (ts : list Z) (t : Z) :
  fold_left Z.max ts t ∈ t :: ts
  /\ Forall (fun x => x <= fold_left Z.max ts t) (t :: ts).
Proof.
  revert t. induction ts as [| y ts IH]; intros t; cbn [fold_left].
  - split; [apply list_elem_of_here | by repeat constructor].
  - destruct (IH (Z.max t y)) as [Hin Hall].
    apply Forall_cons in Hall as [Hm Hall]. split.
    + apply elem_of_cons in Hin as [Heq | Hin].
      * rewrite Heq. destruct (Z.max_spec t y) as [[_ ->] | [_ ->]].
        -- apply list_elem_of_further, list_elem_of_here.
        -- apply list_elem_of_here.
      * by do 2 apply list_elem_of_further.
    + constructor; [lia |]. constructor; [lia | done].
Qed.

(** X23: in the result of [get_poll_analytics], [unique_voters] is at
    most the number of votes of the poll and is 0 exactly when there is
    no vote; [peak_voting_time] is absent exactly when there is no vote,
    and otherwise it is the time of a vote of the poll that no other
    vote of the poll exceeds. *)
Theorem poll_analytics_voters_and_peak
    (db : Session) (now_score now : datetime) (poll_id : Z)
    (pa : PollAnalytics) :
  AnalyticsService.get_poll_analytics db now_score now poll_id = Ok pa ->
  0 <= unique_voters pa <= AnalyticsService.poll_vote_count db poll_id
  /\ (unique_voters pa = 0 <-> AnalyticsService.poll_vote_count db poll_id = 0)
  /\ (peak_voting_time pa = None
      <-> AnalyticsService.poll_vote_count db poll_id = 0)
  /\ (forall t : datetime,
        peak_voting_time pa = Some t ->
        (exists v, v ∈ AnalyticsService.votes_of_poll db poll_id
                   /\ Vote.created_at v = t)
        /\ Forall (fun v => Vote.created_at v <= t)
                  (AnalyticsService.votes_of_poll db poll_id)).
Proof.
  unfold AnalyticsService.get_poll_analytics.
  destruct (AnalyticsService.poll_by_id db poll_id) as [poll |];
    [| discriminate].
  intros [= <-]. cbn [unique_voters peak_voting_time].
  unfold AnalyticsService.count_unique_voters,
    AnalyticsService.poll_vote_count, AnalyticsService._get_peak_voting_time.
  set (vs := AnalyticsService.votes_of_poll db poll_id).
  split; [| split; [| split]].
  - unfold Py.len. split; [lia |].
    apply inj_le. etransitivity; [apply remove_dups_length_le |].
    by rewrite length_map.
  - unfold Py.len. split; intros H0.
    + assert (Hr : remove_dups (map Vote.user_id vs) = [])
        by (apply length_zero_iff_nil; lia).
      apply (proj1 (remove_dups_nil_iff _)) in Hr.
      destruct vs; [done | discriminate Hr].
    + assert (Hv : vs = []) by (apply length_zero_iff_nil; lia).
      by rewrite Hv.
  - unfold Py.len. destruct vs as [| v vs']; cbn; split; try done; lia.
  - intros t Ht. destruct vs as [| v vs'] eqn:Ev; [done |].
    cbn [map] in Ht. injection Ht as <-.
    destruct (fold_max_spec (map Vote.created_at vs') (Vote.created_at v))
      as [Hin Hall].
    change (Vote.created_at v :: map Vote.created_at vs')
      with (Vote.created_at <$> (v :: vs')) in Hin, Hall.
    split.
    + apply list_elem_of_fmap in Hin as (v' & Hv' & Hin). by exists v'.
    + apply Forall_forall. intros v' Hv'. rewrite Forall_forall in Hall.
      apply Hall. by apply list_elem_of_fmap_2.
Qed.

Lemma poll_analytics_voters_and_peak_witness :
  exists pa : PollAnalytics,
    AnalyticsService.get_poll_analytics Samples.twins 0 0 1 = Ok pa
    /\ 0 <= unique_voters pa <= AnalyticsService.poll_vote_count Samples.twins 1
    /\ (unique_voters pa = 0
        <-> AnalyticsService.poll_vote_count Samples.twins 1 = 0)
    /\ (peak_voting_time pa = None
        <-> AnalyticsService.poll_vote_count Samples.twins 1 = 0)
    /\ (forall t : datetime,
          peak_voting_time pa = Some t ->
          (exists v, v ∈ AnalyticsService.votes_of_poll Samples.twins 1
                     /\ Vote.created_at v = t)
          /\ Forall (fun v => Vote.created_at v <= t)
                    (AnalyticsService.votes_of_poll Samples.twins 1)).
Proof.
  destruct (AnalyticsService.get_poll_analytics Samples.twins 0 0 1)
    as [pa | e] eqn:E; vm_compute in E; [| discriminate E].
  exists pa. split; [reflexivity |].
  apply (poll_analytics_voters_and_peak Samples.twins 0 0 1 pa).
  vm_compute. exact E.
Defined.

Lemma kept_rows_NoDup (rows : list (string * Z)) :
  NoDup rows.*1 -> Spec.kept_rows rows = rows.
Proof.
  induction rows as [| [t c] rows IH]; intros Hnd; [done |].
  cbn [fmap list_fmap fst] in Hnd. apply NoDup_cons in Hnd as [Hfresh Hnd].
  cbn [Spec.kept_rows fst].
  rewrite bool_decide_eq_false_2 by done. by rewrite IH.
Qed.

(** X24: when the options of the poll have distinct texts (and option ids
    are distinct), [total_votes] is the number of votes of the poll, and
    the distribution gives every option of the poll, voted or not, its
    own number of votes. *)
Theorem vote_distribution_distinct_texts
    (db : Session) (now_score now : datetime) (poll_id : Z) (poll : Poll.t) :
  AnalyticsService.poll_by_id db poll_id = Some poll ->
  NoDup (map Option.id (options db)) ->
  NoDup (map Option.text
             (List.filter (fun o => Option.poll_id o =? poll_id)
                          (options db))) ->
  exists pa : PollAnalytics,
    AnalyticsService.get_poll_analytics db now_score now poll_id = Ok pa
    /\ total_votes pa = AnalyticsService.poll_vote_count db poll_id
    /\ forall o : Option.t,
         o ∈ options db -> Option.poll_id o = poll_id ->
         vote_distribution pa !! Option.text o
         = Some (Py.len
                   (List.filter (fun v => Vote.option_id v =? Option.id o)
                                (votes db))).
Proof.
  intros Hpoll Hids Htexts.
  unfold AnalyticsService.get_poll_analytics. rewrite Hpoll.
  eexists. split; [reflexivity |]. cbn [total_votes vote_distribution].
  unfold AnalyticsService._get_vote_distribution.
  assert (Hkeys :
            (AnalyticsService.vote_distribution_rows db poll_id).*1
            = map Option.text
                  (List.filter (fun o => Option.poll_id o =? poll_id)
                               (options db))).
  { unfold AnalyticsService.vote_distribution_rows.
    change (map ?f ?l) with (f <$> l).
    rewrite <- list_fmap_compose. reflexivity. }
  split.
  - rewrite sum_values_dict_of_rows, kept_rows_NoDup by (by rewrite Hkeys).
    by apply row_total_vote_count.
  - intros o Ho Hp.
    assert (Hin : In o (List.filter (fun o => Option.poll_id o =? poll_id)
                                    (options db))).
    { apply filter_In. split; [by apply list_elem_of_In | by apply Z.eqb_eq]. }
    apply in_split in Hin as (l1 & l2 & Hsplit).
    rewrite Hsplit in Htexts.
    rewrite map_app in Htexts. cbn [map] in Htexts.
    apply NoDup_app in Htexts as (_ & _ & Hnd2).
    apply NoDup_cons in Hnd2 as [Hfresh _].
    eapply (dict_of_rows_last _ _ _ (Option.text o)).
    + unfold AnalyticsService.vote_distribution_rows.
      rewrite Hsplit, map_app. cbn [map]. reflexivity.
    + change (map ?f ?l) with (f <$> l).
      rewrite <- list_fmap_compose. exact Hfresh.
Qed.

Lemma vote_distribution_distinct_texts_witness :
  exists pa : PollAnalytics,
    AnalyticsService.get_poll_analytics Samples.busy 0 0 1 = Ok pa
    /\ total_votes pa = AnalyticsService.poll_vote_count Samples.busy 1
    /\ forall o : Option.t,
         o ∈ options Samples.busy -> Option.poll_id o = 1 ->
         vote_distribution pa !! Option.text o
         = Some (Py.len
                   (List.filter (fun v => Vote.option_id v =? Option.id o)
                                (votes Samples.busy))).
Proof.
  apply (vote_distribution_distinct_texts Samples.busy 0 0 1
           (Samples.mk_poll 1 1)).
  - reflexivity.
  - apply (bool_decide_unpack _). vm_compute. exact I.
  - apply (bool_decide_unpack _). vm_compute. exact I.
Defined.

(** X25: a poll with ten votes or more has the full performance score of
    100, whatever its views and its age. *)
Theorem performance_score_saturates
    (db : Session) (now : datetime) (poll_id : Z) (poll : Poll.t) :
  AnalyticsService.poll_by_id db poll_id = Some poll ->
  10 <= AnalyticsService.poll_vote_count db poll_id ->
  (AnalyticsService._calculate_poll_performance_score db now poll_id
   == 100)%Q.
Proof.
  intros Hpoll Hvotes.
  unfold AnalyticsService._calculate_poll_performance_score. rewrite Hpoll.
  set (votes := AnalyticsService.poll_vote_count db poll_id) in *.
  assert (Hv : (10 <= inject_Z votes)%Q).
  { change 10%Q with (inject_Z 10). by rewrite <- Zle_Qle. }
  set (rate := if 0 <? AnalyticsService.poll_views poll
               then (inject_Z votes
                     / inject_Z (AnalyticsService.poll_views poll))%Q
               else 0%Q).
  assert (Hrate : (0 <= rate)%Q).
  { unfold rate.
    destruct (Z.ltb_spec 0 (AnalyticsService.poll_views poll)) as [Hp | Hp];
      [| apply Qle_refl].
    apply Qle_shift_div_l; [| qlra].
    change 0%Q with (inject_Z 0). by rewrite <- Zlt_Qlt. }
  set (recency :=
         Py.max 0 (1 - inject_Z (Time.days (now - Poll.created_at poll))
                       / 30)%Q).
  assert (Hrec : (0 <= recency)%Q) by apply py_max_bounds.
  assert (E : Py.min 100 (inject_Z votes * 10 + rate * 50 + recency * 20)%Q
              = 100%Q).
  { unfold Py.min.
    assert (El : Py.Qlt_bool (inject_Z votes * 10 + rate * 50 + recency * 20)
                             100 = false)
      by (apply Qlt_bool_false_iff; qlra).
    by rewrite El. }
  rewrite E. reflexivity.
Qed.

Lemma performance_score_saturates_witness :
  (AnalyticsService._calculate_poll_performance_score
     {| users := [Samples.alice];
        polls := [Samples.mk_poll 1 0];
        options :=
          [ {| Option.id := 1; Option.text := "Tea"; Option.poll_id := 1 |} ];
        votes := map (fun i => Samples.mk_vote i 1 i) (Py.range 10) |}
     0%Z 1%Z
   == 100)%Q.
Proof.
  apply (performance_score_saturates _ 0 1 (Samples.mk_poll 1 0)).
  - reflexivity.
  - vm_compute. discriminate.
Defined.

(** ** Popular polls *)




(** ** Voting trends *)

Lemma sumZ_acc (l : list Z) (acc : Z) :
  fold_left Z.add l acc = acc + Py.sumZ l.
Proof.
  unfold Py.sumZ. revert acc. induction l as [| x l IH]; intros acc; simpl.
  - lia.
  - rewrite IH, (IH (0 + x)). lia.
Qed.

Lemma sumZ_cons (x : Z) (l : list Z) : Py.sumZ (x :: l) = x + Py.sumZ l.
Proof. unfold Py.sumZ at 1. simpl. rewrite sumZ_acc. lia. Qed.

(** Grouping by a key loses nothing: over distinct keys that cover the
    list, the sizes of the groups add up to the length of the list. *)
Lemma group_sizes_sum {A} (key : A -> Z) (l : list A) (ks : list Z) :
  NoDup ks ->
  Py.sumZ (map (fun k => Py.len (List.filter (fun x => key x =? k) l)) ks)
  = Py.len (List.filter (fun x => existsb (Z.eqb (key x)) ks) l).
Proof.
  induction 1 as [| k ks Hk Hks IH].
  - simpl. by rewrite filter_all_false by (by apply Forall_forall).
  - cbn [map]. rewrite sumZ_cons, IH. clear IH. unfold Py.len.
    induction l as [| x l IHl]; [done |].
    cbn [List.filter existsb] in IHl |- *.
    destruct (Z.eqb_spec (key x) k) as [Hxk | Hxk]; cbn [orb length].
    + assert (E : existsb (Z.eqb (key x)) ks = false).
      { apply not_true_iff_false. intros He.
        apply existsb_exists in He as (k' & Hin & Hk').
        apply Z.eqb_eq in Hk'. apply Hk. apply list_elem_of_In. congruence. }
      rewrite E. lia.
    + destruct (existsb (Z.eqb (key x)) ks); cbn [length]; lia.
Qed.

Lemma group_sizes_total {A} (key : A -> Z) (l : list A) :
  Py.sumZ
    (map (fun k => Py.len (List.filter (fun x => key x =? k) l))
         (remove_dups (map key l)))
  = Py.len l.
Proof.
  rewrite group_sizes_sum by apply NoDup_remove_dups.
  rewrite filter_all_true; [done |].
  apply Forall_forall. intros x Hx. apply existsb_exists.
  exists (key x). split; [| apply Z.eqb_refl].
  apply list_elem_of_In, elem_of_remove_dups.
  change (map key l) with (key <$> l). by apply list_elem_of_fmap_2.
Qed.

Lemma max_by_spec {A} (key : A -> Z) (l : list A) (x : A) :
  Py.max_by key x l ∈ x :: l
  /\ Forall (fun y => key y <= key (Py.max_by key x l)) (x :: l).
Proof.
  unfold Py.max_by. revert x.
  induction l as [| y l IH]; intros x; cbn [fold_left].
  - split; [apply list_elem_of_here | by repeat constructor].
  - destruct (IH (if key x <? key y then y else x)) as [Hin Hall].
    apply Forall_cons in Hall as [Hm Hall]. split.
    + apply elem_of_cons in Hin as [Heq | Hin].
      * rewrite Heq. destruct (key x <? key y).
        -- apply list_elem_of_further, list_elem_of_here.
        -- apply list_elem_of_here.
      * by do 2 apply list_elem_of_further.
    + destruct (Z.ltb_spec (key x) (key y));
        (constructor; [lia |]; constructor; [lia | done]).
Qed.

Lemma string_length_append (a b : string) :
  String.length (String.append a b) = (String.length a + String.length b)%nat.
Proof. induction a as [| c a IH]; simpl; [done | by rewrite IH]. Qed.

Lemma sumZ_Permutation (l l' : list Z) :
  Permutation l l' -> Py.sumZ l = Py.sumZ l'.
Proof.
  induction 1 as [| x l l' _ IH | x y l | l l' l'' _ IH1 _ IH2].
  - done.
  - by rewrite !sumZ_cons, IH.
  - rewrite !sumZ_cons. lia.
  - by rewrite IH1.
Qed.

(** X28: whatever the order in which the database returns the days, in
    the result of [get_voting_trends] [total_votes_period] is the number
    of votes cast on the user's polls in the period; the daily average is
    that total divided by [days] when [days] is positive, and 0
    otherwise; every day listed has at least one voter and no more voters
    than votes; no day is listed when [days] is negative; [peak_day] is
    absent exactly when the period has no vote, and otherwise names a
    listed day that no other day exceeds; at most three popular times are
    given; and the timeframe reads 'week' exactly when [days] is 7. *)
Theorem get_voting_trends_totals
    (db : Session) (strftime_date : Z -> string)
    (group_order : list Z -> list Z)
    (now : datetime) (user_id days : Z) :
  (forall l : list Z, Permutation (group_order l) l) ->
  total_votes_period
    (AnalyticsService.get_voting_trends
       db strftime_date group_order now user_id days)
  = Py.len (AnalyticsService.votes_in_window
       db user_id (now - days * Time.us_per_day) now)
  /\ (0 < days ->
      (average_daily_votes
         (AnalyticsService.get_voting_trends
       db strftime_date group_order now user_id days)
       == inject_Z
            (Py.len (AnalyticsService.votes_in_window
       db user_id (now - days * Time.us_per_day)%Z now))
          / inject_Z days)%Q)
  /\ (days <= 0 ->
      average_daily_votes
        (AnalyticsService.get_voting_trends
       db strftime_date group_order now user_id days)
      = 0%Q)
  /\ Forall (fun r => 1 <= dv_unique_voters r <= vote_count r)
       (daily_votes
          (AnalyticsService.get_voting_trends
       db strftime_date group_order now user_id days))
  /\ (days < 0 ->
      daily_votes
        (AnalyticsService.get_voting_trends
       db strftime_date group_order now user_id days)
      = [])
  /\ (peak_day
        (AnalyticsService.get_voting_trends
       db strftime_date group_order now user_id days)
      = None
      <-> AnalyticsService.votes_in_window
       db user_id (now - days * Time.us_per_day) now = [])
  /\ (forall d : string,
        peak_day
          (AnalyticsService.get_voting_trends
       db strftime_date group_order now user_id days)
        = Some d ->
        exists row : DailyVoteCount,
          row ∈ daily_votes
                  (AnalyticsService.get_voting_trends
       db strftime_date group_order now user_id days)
          /\ date row = d
          /\ Forall (fun r => vote_count r <= vote_count row)
               (daily_votes
                  (AnalyticsService.get_voting_trends
       db strftime_date group_order now user_id days)))
  /\ Py.len
       (popular_times
          (AnalyticsService.get_voting_trends
       db strftime_date group_order now user_id days)) <= 3
  /\ (timeframe
        (AnalyticsService.get_voting_trends
       db strftime_date group_order now user_id days)
      = "week"%string
      <-> days = 7).
Proof.
  intros Horder.
  unfold AnalyticsService.get_voting_trends.
  cbn [total_votes_period average_daily_votes daily_votes peak_day
       popular_times timeframe].
  unfold AnalyticsService._get_daily_vote_counts.
  set (window := AnalyticsService.votes_in_window
                   db user_id (now - days * Time.us_per_day) now).
  set (row := fun day : Z =>
                {| date := strftime_date day;
                   vote_count :=
                     Py.len (List.filter
                               (fun v => AnalyticsService.vote_day v =? day)
                               window);
                   dv_unique_voters :=
                     Py.len (remove_dups
                               (map Vote.user_id
                                    (List.filter
                                       (fun v =>
                                          AnalyticsService.vote_day v =? day)
                                       window))) |}).
  set (days_met := remove_dups (map AnalyticsService.vote_day window)).
  set (keys := group_order days_met).
  assert (Hperm : Permutation keys days_met) by apply Horder.
  assert (Hnil : keys = [] <-> window = []).
  { split.
    - intros Hk. rewrite Hk in Hperm. apply Permutation_nil in Hperm.
      unfold days_met in Hperm.
      apply (proj1 (remove_dups_nil_iff _)) in Hperm.
      by apply map_eq_nil in Hperm.
    - intros Hw. apply Permutation_nil. symmetry.
      unfold days_met in Hperm. by rewrite Hw in Hperm. }
  assert (Htotal : Py.sumZ (map vote_count (map row keys)) = Py.len window).
  { rewrite map_map. cbn [row vote_count].
    rewrite (sumZ_Permutation _ _ (Permutation_map _ Hperm)).
    apply group_sizes_total. }
  split; [exact Htotal |].
  split.
  { intros Hdays. apply Z.ltb_lt in Hdays. rewrite Hdays, Htotal.
    reflexivity. }
  split.
  { intros Hdays. apply Z.ltb_ge in Hdays. by rewrite Hdays. }
  split.
  { change (map row keys) with (row <$> keys). apply Forall_fmap.
    apply Forall_forall. intros day Hday. unfold compose.
    cbn [row dv_unique_voters vote_count].
    rewrite Hperm in Hday.
    unfold days_met in Hday. rewrite elem_of_remove_dups in Hday.
    change (map ?f ?l) with (f <$> l) in Hday.
    apply list_elem_of_fmap in Hday as (v & -> & Hv).
    set (group := List.filter _ window).
    assert (Hin : In v group).
    { apply filter_In. split; [by apply list_elem_of_In | apply Z.eqb_refl]. }
    pose proof (remove_dups_length_le (map Vote.user_id group)) as Hle.
    rewrite length_map in Hle.
    destruct (remove_dups (map Vote.user_id group)) as [| u us] eqn:Er.
    - apply (proj1 (remove_dups_nil_iff _)) in Er.
      destruct group; [done | discriminate Er].
    - unfold Py.len in *. cbn [length] in *. lia. }
  split.
  { intros Hneg.
    assert (Hw : window = []).
    { unfold window, AnalyticsService.votes_in_window.
      rewrite filter_all_false; [done |].
      apply Forall_forall. intros vp _.
      assert (Hu : 0 < Time.us_per_day) by reflexivity.
      destruct (Z.leb_spec (now - days * Time.us_per_day)
                           (Vote.created_at vp.1)); [| done].
      destruct (Z.leb_spec (Vote.created_at vp.1) now); [| done]. nia. }
    apply Hnil in Hw. by rewrite Hw. }
  split.
  { rewrite <- Hnil. destruct keys as [| k ks]; [done |].
    split; discriminate. }
  split.
  { intros d Hd. destruct (map row keys) as [| d0 ds]; [done |].
    injection Hd as <-.
    destruct (max_by_spec vote_count ds d0) as [Hin Hall].
    eexists. split; [exact Hin |]. split; [reflexivity | exact Hall]. }
  split.
  { unfold AnalyticsService._get_popular_voting_times, Py.len.
    rewrite length_map, length_take. lia. }
  destruct (Z.eqb_spec days 7) as [-> | Hne]; cbn [negb]; [done |].
  split; [| done]. intros Hs.
  apply (f_equal String.length) in Hs.
  rewrite string_length_append in Hs. simpl in Hs. lia.
Qed.

Lemma get_voting_trends_totals_witness :
  total_votes_period
    (AnalyticsService.get_voting_trends
       Samples.mixed Py.str_int (@rev Z) (2 * Time.us_per_day)%Z 1%Z 7%Z)
  = Py.len (AnalyticsService.votes_in_window
       Samples.mixed 1 (2 * Time.us_per_day - 7 * Time.us_per_day)
       (2 * Time.us_per_day))
  /\ (0 < 7 ->
      (average_daily_votes
         (AnalyticsService.get_voting_trends
       Samples.mixed Py.str_int (@rev Z) (2 * Time.us_per_day)%Z 1%Z 7%Z)
       == inject_Z
            (Py.len (AnalyticsService.votes_in_window
       Samples.mixed 1 (2 * Time.us_per_day - 7 * Time.us_per_day)%Z
       (2 * Time.us_per_day)%Z))
          / inject_Z 7)%Q)
  /\ (7 <= 0 ->
      average_daily_votes
        (AnalyticsService.get_voting_trends
       Samples.mixed Py.str_int (@rev Z) (2 * Time.us_per_day)%Z 1%Z 7%Z)
      = 0%Q)
  /\ Forall (fun r => 1 <= dv_unique_voters r <= vote_count r)
       (daily_votes
          (AnalyticsService.get_voting_trends
       Samples.mixed Py.str_int (@rev Z) (2 * Time.us_per_day) 1 7))
  /\ (7 < 0 ->
      daily_votes
        (AnalyticsService.get_voting_trends
       Samples.mixed Py.str_int (@rev Z) (2 * Time.us_per_day)%Z 1%Z 7%Z)
      = [])
  /\ (peak_day
        (AnalyticsService.get_voting_trends
       Samples.mixed Py.str_int (@rev Z) (2 * Time.us_per_day)%Z 1%Z 7%Z)
      = None
      <-> AnalyticsService.votes_in_window
       Samples.mixed 1 (2 * Time.us_per_day - 7 * Time.us_per_day)
       (2 * Time.us_per_day) = [])
  /\ (forall d : string,
        peak_day
          (AnalyticsService.get_voting_trends
       Samples.mixed Py.str_int (@rev Z) (2 * Time.us_per_day)%Z 1%Z 7%Z)
        = Some d ->
        exists row : DailyVoteCount,
          row ∈ daily_votes
                  (AnalyticsService.get_voting_trends
       Samples.mixed Py.str_int (@rev Z) (2 * Time.us_per_day)%Z 1%Z 7%Z)
          /\ date row = d
          /\ Forall (fun r => vote_count r <= vote_count row)
               (daily_votes
                  (AnalyticsService.get_voting_trends
       Samples.mixed Py.str_int (@rev Z) (2 * Time.us_per_day) 1 7)))
  /\ Py.len
       (popular_times
          (AnalyticsService.get_voting_trends
       Samples.mixed Py.str_int (@rev Z) (2 * Time.us_per_day) 1 7)) <= 3
  /\ (timeframe
        (AnalyticsService.get_voting_trends
       Samples.mixed Py.str_int (@rev Z) (2 * Time.us_per_day)%Z 1%Z 7%Z)
      = "week"%string
      <-> 7 = 7).
Proof.
  apply (get_voting_trends_totals
           Samples.mixed Py.str_int (@rev Z) (2 * Time.us_per_day) 1 7).
  intros l. symmetry. apply Permutation_rev.
Defined.

(** ** Routes *)

Lemma poll_by_id_found (db : Session) (poll_id : Z) (poll : Poll.t) :
  AnalyticsService.poll_by_id db poll_id = Some poll ->
  poll ∈ polls db /\ Poll.id poll = poll_id.
Proof.
  intros H. apply find_some in H as [Hin Hid].
  split; [by apply list_elem_of_In | by apply Z.eqb_eq].
Qed.

Lemma poll_by_id_missing (db : Session) (poll_id : Z) :
  AnalyticsService.poll_by_id db poll_id = None ->
  Forall (fun p => Poll.id p <> poll_id) (polls db).
Proof.
  intros H. apply Forall_forall. intros p Hp. apply list_elem_of_In in Hp.
  pose proof (find_none _ _ H p Hp) as Hne. by apply Z.eqb_neq in Hne.
Qed.

(** X29: the routes [get_poll_analytics] and
    [get_poll_engagement_details] answer in one of three ways.  When the
    first stored poll with the id is owned by the caller, the ownership
    check returns it, the service raises nothing, and both routes
    return: the first the service's analytics, the second its details.
    When no stored poll has the id both answer 404 'Poll not found'.
    When the poll is owned by someone else both answer 403. *)
Theorem poll_routes_access_control
    (db : Session) (now_score now : datetime) (poll_id : Z)
    (current_user : User.t) :
  (exists (poll : Poll.t) (pa : PollAnalytics) (ed : Routes.EngagementDetails),
      poll ∈ polls db /\ Poll.id poll = poll_id
      /\ Poll.owner_id poll = User.id current_user
      /\ Routes.verify_poll_ownership db poll_id current_user
         = Routes.Return poll
      /\ AnalyticsService.get_poll_analytics db now_score now poll_id = Ok pa
      /\ Routes.get_poll_analytics db now_score now poll_id current_user
         = Routes.Return pa
      /\ Routes.get_poll_engagement_details
           db now_score now poll_id current_user
         = Routes.Return ed)
  \/ (Forall (fun p => Poll.id p <> poll_id) (polls db)
      /\ Routes.verify_poll_ownership db poll_id current_user
         = Routes.HTTPException 404 "Poll not found"
      /\ Routes.get_poll_analytics db now_score now poll_id current_user
         = Routes.HTTPException 404 "Poll not found"
      /\ Routes.get_poll_engagement_details
           db now_score now poll_id current_user
         = Routes.HTTPException 404 "Poll not found")
  \/ (exists poll : Poll.t,
        poll ∈ polls db /\ Poll.id poll = poll_id
        /\ Poll.owner_id poll <> User.id current_user
        /\ Routes.verify_poll_ownership db poll_id current_user
           = Routes.HTTPException 403 "Access denied: You don't own this poll"
        /\ Routes.get_poll_analytics db now_score now poll_id current_user
           = Routes.HTTPException 403 "Access denied: You don't own this poll"
        /\ Routes.get_poll_engagement_details
             db now_score now poll_id current_user
           = Routes.HTTPException
               403 "Access denied: You don't own this poll").
Proof.
  unfold Routes.get_poll_analytics, Routes.get_poll_engagement_details,
    Routes.verify_poll_ownership, AnalyticsService.get_poll_analytics.
  destruct (AnalyticsService.poll_by_id db poll_id) as [poll |] eqn:Ep.
  - destruct (poll_by_id_found db poll_id poll Ep) as [Hin Hid].
    destruct (Z.eqb_spec (Poll.owner_id poll) (User.id current_user))
      as [Hown | Hown]; cbn [negb].
    + left. exists poll. do 2 eexists. repeat split; done.
    + right. right. exists poll. repeat split; done.
  - right. left. split; [by apply poll_by_id_missing |]. repeat split.
Qed.

(** X30: whenever [get_poll_engagement_details] returns, the poll is
    stored and owned by the caller, the poll age it reports is 0 hours
    and the engagement velocity is 0, whatever the clock, the votes and
    the views: the age is taken between the poll's creation time and the
    same creation time as copied into the analytics.  The conversion
    rate is the engagement rate of the analytics rounded to two places,
    and the counts are those of the analytics. *)
Theorem engagement_details_age_zero
    (db : Session) (now_score now : datetime) (poll_id : Z)
    (current_user : User.t) (ed : Routes.EngagementDetails) :
  Routes.get_poll_engagement_details db now_score now poll_id current_user
  = Routes.Return ed ->
  (Routes.poll_age_hours ed == 0)%Q
  /\ (Routes.engagement_velocity ed == 0)%Q
  /\ exists (poll : Poll.t) (pa : PollAnalytics),
       poll ∈ polls db /\ Poll.id poll = poll_id
       /\ Poll.owner_id poll = User.id current_user
       /\ AnalyticsService.get_poll_analytics db now_score now poll_id = Ok pa
       /\ Routes.conversion_rate ed = Py.round (engagement_rate pa) 2
       /\ Routes.ed_total_votes ed = total_votes pa
       /\ Routes.ed_total_views ed = total_views pa
       /\ Routes.ed_unique_voters ed = unique_voters pa
       /\ Routes.ed_vote_distribution ed = vote_distribution pa.
Proof.
  unfold Routes.get_poll_engagement_details, Routes.verify_poll_ownership.
  destruct (AnalyticsService.poll_by_id db poll_id) as [poll |] eqn:Ep;
    [| discriminate].
  destruct (poll_by_id_found db poll_id poll Ep) as [Hin Hid].
  destruct (Z.eqb_spec (Poll.owner_id poll) (User.id current_user))
    as [Hown | Hown]; cbn [negb]; [| discriminate].
  unfold AnalyticsService.get_poll_analytics. rewrite Ep.
  cbn [total_votes total_views pa_created_at].
  set (age := ((Routes.timestamp (Poll.created_at poll)
                - Routes.timestamp (Poll.created_at poll)) / 3600)%Q).
  assert (Hage : (age == 0)%Q) by (unfold age; field).
  assert (Hvel : Py.Qlt_bool 0 age = false)
    by (apply Qlt_bool_false_iff; rewrite Hage; apply Qle_refl).
  rewrite Hvel. intros [= <-].
  cbn [Routes.poll_age_hours Routes.engagement_velocity
       Routes.conversion_rate Routes.ed_total_votes Routes.ed_total_views
       Routes.ed_unique_voters Routes.ed_vote_distribution].
  split; [by rewrite (round_proper age 0 2 Hage) |].
  split; [reflexivity |].
  exists poll. eexists. repeat split; done.
Qed.

Lemma engagement_details_age_zero_witness :
  exists ed : Routes.EngagementDetails,
    Routes.get_poll_engagement_details
      Samples.busy 0 (3 * Samples.hour_us) 1 Samples.alice
    = Routes.Return ed
    /\ (Routes.poll_age_hours ed == 0)%Q
    /\ (Routes.engagement_velocity ed == 0)%Q
    /\ exists (poll : Poll.t) (pa : PollAnalytics),
         poll ∈ polls Samples.busy /\ Poll.id poll = 1
         /\ Poll.owner_id poll = User.id Samples.alice
         /\ AnalyticsService.get_poll_analytics
              Samples.busy 0 (3 * Samples.hour_us) 1 = Ok pa
         /\ Routes.conversion_rate ed = Py.round (engagement_rate pa) 2
         /\ Routes.ed_total_votes ed = total_votes pa
         /\ Routes.ed_total_views ed = total_views pa
         /\ Routes.ed_unique_voters ed = unique_voters pa
         /\ Routes.ed_vote_distribution ed = vote_distribution pa.
Proof.
  destruct (Routes.get_poll_engagement_details
              Samples.busy 0 (3 * Samples.hour_us) 1 Samples.alice)
    as [ed | code detail] eqn:E; vm_compute in E; [| discriminate E].
  exists ed. split; [reflexivity |].
  apply (engagement_details_age_zero
           Samples.busy 0 (3 * Samples.hour_us) 1 Samples.alice ed).
  vm_compute. exact E.
Defined.
